(** * SmartPPT: outline recovery (llm/llm_api.py) and deck writer
    (writer/ppt_writer.py), embedded as Rocq functions.

    Python [str] values are sequences of Unicode code points, JSON values and
    the outline are a tagged tree, exceptions are an error sum, and mutation
    of the deck and of its files is explicit state passing. What the program
    leaves to its libraries and to its environment is a parameter: [str.lower],
    [json.loads], [repr] of a value, the code points that standard output can
    encode, the outcome of the HTTP request, the default deck of
    [Presentation()] and whether a path can be written. *)

From Stdlib Require Import List ZArith NArith Bool Lia Ascii String.
From Stdlib Require Import Numbers.DecimalString.
Import ListNotations.

Open Scope Z_scope.

(** ** Python strings *)

Module PyStr.

(** A Python [str]: its code points, in order. *)
Definition str := list N.

(** Decoder for the UTF-8 literals of this file; [u "..."] is the [str]
    denoted by the Python literal with the same text. *)
Fixpoint utf8_bytes (s : string) : list N :=
  match s with
  | EmptyString => []
  | String c s' => N_of_ascii c :: utf8_bytes s'
  end.

Definition cont (b : N) : N := N.land b 63.

Fixpoint utf8_decode (fuel : nat) (bs : list N) : str :=
  match fuel with
  | O => []
  | S fuel' =>
    match bs with
    | [] => []
    | b0 :: r0 =>
      if (b0 <? 128)%N then b0 :: utf8_decode fuel' r0
      else if (b0 <? 224)%N then
        match r0 with
        | b1 :: r1 =>
          (N.land b0 31 * 64 + cont b1)%N :: utf8_decode fuel' r1
        | _ => []
        end
      else if (b0 <? 240)%N then
        match r0 with
        | b1 :: b2 :: r2 =>
          (N.land b0 15 * 4096 + cont b1 * 64 + cont b2)%N
            :: utf8_decode fuel' r2
        | _ => []
        end
      else
        match r0 with
        | b1 :: b2 :: b3 :: r3 =>
          (N.land b0 7 * 262144 + cont b1 * 4096 + cont b2 * 64 + cont b3)%N
            :: utf8_decode fuel' r3
        | _ => []
        end
    end
  end.

Definition u (s : string) : str :=
  let bs := utf8_bytes s in utf8_decode (List.length bs) bs.

Definition str_eqb (a b : str) : bool :=
  if list_eq_dec N.eq_dec a b then true else false.

Definition len {A} (l : list A) : Z := Z.of_nat (List.length l).

(** [str(i)] for an [int]. *)
Definition str_of_int (i : Z) : str :=
  utf8_bytes (NilZero.string_of_int (Z.to_int i)).

(** [s.startswith(p)] *)
Fixpoint startswith (s p : str) : bool :=
  match p, s with
  | [], _ => true
  | _ :: _, [] => false
  | c :: p', d :: s' => (c =? d)%N && startswith s' p'
  end.

(** [s.startswith((p1, p2, ...))] *)
Definition startswith_any (s : str) (ps : list str) : bool :=
  existsb (startswith s) ps.

(** [s.endswith(p)] *)
Definition endswith (s p : str) : bool :=
  startswith (rev s) (rev p).

(** [p in s] *)
Fixpoint contains (s p : str) : bool :=
  startswith s p ||
  match s with
  | [] => false
  | _ :: s' => contains s' p
  end.

(** [c.isspace()] for one code point: the Unicode white space that
    [str.strip()] removes. *)
Definition isspace (c : N) : bool :=
  ((9 <=? c) && (c <=? 13) || (28 <=? c) && (c <=? 32)
   || (c =? 133) || (c =? 160) || (c =? 5760)
   || (8192 <=? c) && (c <=? 8202)
   || (c =? 8232) || (c =? 8233) || (c =? 8239) || (c =? 8287)
   || (c =? 12288))%N.

Fixpoint dropwhile {A} (f : A -> bool) (l : list A) : list A :=
  match l with
  | [] => []
  | x :: l' => if f x then dropwhile f l' else l
  end.

(** [s.lstrip()], [s.rstrip()], [s.strip()] *)
Definition lstrip (s : str) : str := dropwhile isspace s.
Definition rstrip (s : str) : str := rev (dropwhile isspace (rev s)).
Definition strip (s : str) : str := rstrip (lstrip s).

(** [s.lstrip(chars)] *)
Definition mem (c : N) (chars : str) : bool := existsb (N.eqb c) chars.
Definition lstrip_chars (s chars : str) : str :=
  dropwhile (fun c => mem c chars) s.

(** [s.split(sep)] for a one-character [sep]. *)
Fixpoint split (sep : N) (s : str) : list str :=
  match s with
  | [] => [[]]
  | c :: s' =>
    if (c =? sep)%N then [] :: split sep s'
    else match split sep s' with
         | [] => [[c]]
         | w :: ws => (c :: w) :: ws
         end
  end.

(** [s.split(sep, 1)[1]] when [sep in s]: what follows the first [sep]. *)
Fixpoint after_first (sep : N) (s : str) : str :=
  match s with
  | [] => []
  | c :: s' => if (c =? sep)%N then s' else after_first sep s'
  end.

(** [l[k:]] for a literal [k >= 0], and [l[:n]] for any [int] [n]. *)
Definition slice_from {A} (k : nat) (l : list A) : list A := skipn k l.

Definition slice_to {A} (n : Z) (l : list A) : list A :=
  if 0 <=? n then firstn (Z.to_nat n) l
  else firstn (Z.to_nat (len l + n)) l.

(** The code points of [':'] and of ['\n']. *)
Definition colon : N := 58.
Definition newline : N := 10.

(** [range(lo, hi)] *)
Definition range (lo hi : Z) : list Z :=
  map (fun k => lo + Z.of_nat k) (seq 0 (Z.to_nat (hi - lo))).

End PyStr.
Import PyStr.


(** ** Python values and exceptions *)

(** The exceptions this program can meet; all derive from [Exception]. *)
Inductive exn : Type :=
  | ValueError | KeyError | IndexError | TypeError | AttributeError
  | JSONDecodeError | RequestException | APIError | OSError
  | UnicodeEncodeError
  | PackageNotFoundError (path : str)
  | PermissionError (path : str).

Inductive res (A : Type) : Type :=
  | Ok (a : A)
  | Raise (e : exn).
Arguments Ok {A} a.
Arguments Raise {A} e.

Definition bind {A B} (m : res A) (k : A -> res B) : res B :=
  match m with
  | Ok a => k a
  | Raise e => Raise e
  end.

Notation "x <- m ;; k" := (bind m (fun x => k))
  (at level 61, m at next level, right associativity).

(** What [json.loads] can build, which is also what the outline is made
    of. A [dict] keeps its items in insertion order; a [float] is carried as
    its IEEE-754 bit pattern. *)
#[warnings="-register-all"]
Inductive value : Type :=
  | VNone
  | VBool (b : bool)
  | VInt (i : Z)
  | VFloat (bits : Z)
  | VStr (s : str)
  | VList (l : list value)
  | VDict (d : list (str * value)).

Fixpoint dict_get (d : list (str * value)) (k : str) : option value :=
  match d with
  | [] => None
  | (k', v) :: d' => if str_eqb k' k then Some v else dict_get d' k
  end.

(** [k in d] *)
Definition dict_has (d : list (str * value)) (k : str) : bool :=
  match dict_get d k with Some _ => true | None => false end.

(** [v[k]] for a string key [k] *)
Definition getitem (v : value) (k : str) : res value :=
  match v with
  | VDict d =>
    match dict_get d k with
    | Some x => Ok x
    | None => Raise KeyError
    end
  | _ => Raise TypeError
  end.

(** [v[0]] *)
Definition getitem0 (v : value) : res value :=
  match v with
  | VList (x :: _) => Ok x
  | VList [] => Raise IndexError
  | VStr (c :: _) => Ok (VStr [c])
  | VStr [] => Raise IndexError
  | VDict _ => Raise KeyError
  | _ => Raise TypeError
  end.

(** [v[:200]], evaluated for the diagnostic print only. *)
Definition preview (v : value) : res value :=
  match v with
  | VStr s => Ok (VStr (slice_to 200 s))
  | VList l => Ok (VList (slice_to 200 l))
  | _ => Raise TypeError
  end.

(** A method of [str] called on [v]: an [AttributeError] on anything else. *)
Definition as_str (v : value) : res str :=
  match v with
  | VStr s => Ok s
  | _ => Raise AttributeError
  end.

(** The three dict shapes of the outline. *)
Definition fact_ (fact explanation : str) : value :=
  VDict [(u "fact", VStr fact); (u "explanation", VStr explanation)].

Definition point_ (main_point : str) (supporting_facts : list value) : value :=
  VDict [(u "main_point", VStr main_point);
         (u "supporting_facts", VList supporting_facts)].

Definition page_ (title summary : str) (points : list value) : value :=
  VDict [(u "title", VStr title); (u "summary", VStr summary);
         (u "points", VList points)].

(** ** Standard output

    [print] encodes its text for standard output and raises
    [UnicodeEncodeError] on a code point that the encoding of standard output
    does not have. [encodable] says which code points it has. A call of
    [print] is modelled by the data strings that its message interpolates;
    the fixed text of the program's messages, and the numbers, type names
    and escaped forms they show, are taken to be encodable. *)

Definition print_ok (encodable : N -> bool) (text : str) : bool :=
  forallb encodable text.

Definition print (encodable : N -> bool) (data : list str) : res unit :=
  if forallb (print_ok encodable) data then Ok tt
  else Raise UnicodeEncodeError.

(** [str(v)], as an f-string formats [v]: the string itself, and [repr(v)]
    for a value that is no string. *)
Definition py_str (repr : value -> str) (v : value) : str :=
  match v with
  | VStr s => s
  | _ => repr v
  end.

(** The data quoted by [str(e)]: the path as it is for a package that was
    not found, its [repr] for a file that could not be written; the other
    messages are fixed text or quote what was printed before. *)
Definition exn_data (repr : value -> str) (e : exn) : list str :=
  match e with
  | PackageNotFoundError path => [path]
  | PermissionError path => [repr (VStr path)]
  | _ => []
  end.

(** ** llm/llm_api.py *)

Module LLMApi.

(** The fields of an [LLMApi] object ([headers] is derived from [api_key]). *)
Record t : Type := mk {
  api_key : option str;
  base_url : str;
  model : str
}.

(** What [requests.post] did with the one request of [_call_llm]: it raised,
    or it returned a response with a status code, a body text and the result
    of [response.json()]. In a run that has a reply the two prints before
    the request, of the URL and of the model name, have returned; the print
    of the body of a response whose status is not 200 comes right before the
    [raise]. *)
Inductive reply : Type :=
  | ConnectionFailed
  | Response (status_code : Z) (text : str) (json : res value).

(** [not self.api_key] *)
Definition api_key_unset (self : t) : bool :=
  match api_key self with
  | None => true
  | Some [] => true
  | Some (_ :: _) => false
  end.

Definition _call_llm (self : t) (post : reply) : res value :=
  if api_key_unset self then Raise ValueError
  else
    match post with
    | ConnectionFailed => Raise RequestException
    | Response status_code _ json =>
      if negb (status_code =? 200) then Raise APIError
      else
        result <- json ;;
        choices <- getitem result (u "choices") ;;
        choice <- getitem0 choices ;;
        message <- getitem choice (u "message") ;;
        getitem message (u "content")
    end.

(** *** _generate_fallback_content *)

Definition intro_page (topic : str) : value :=
  page_ (topic ++ u " - 介绍")
    (u "今天我们将深入探讨" ++ topic
       ++ u "这个精彩话题，它包含了丰富的内容和深刻的内涵，让我们一起揭开它的神秘面纱。")
    [ point_ (u "什么是" ++ topic)
        [ fact_ (topic ++ u "的基本定义和概念") (u "核心概念解释");
          fact_ (topic ++ u "在相关领域中的地位") (u "重要性和影响力") ];
      point_ (topic ++ u "的重要性")
        [ fact_ (u "对行业发展的推动作用") (u "促进产业升级");
          fact_ (u "对用户需求的满足程度") (u "解决实际问题") ];
      point_ (topic ++ u "的发展历程")
        [ fact_ (topic ++ u "的历史背景") (u "发展起源");
          fact_ (topic ++ u "的发展阶段") (u "关键里程碑") ];
      point_ (u "本次演讲的主要内容")
        [ fact_ (u "将涵盖" ++ topic ++ u "的各个方面") (u "全面分析");
          fact_ (u "提供详细的分析和数据支持") (u "数据支撑") ] ].

Definition part_page (topic : str) (i : Z) : value :=
  let n := str_of_int (i + 1) in
  page_ (topic ++ u " - 第" ++ n ++ u "部分")
    (u "在了解了" ++ topic ++ u "的基础知识后，现在让我们深入探讨它的第" ++ n
       ++ u "个重要方面，这里有许多令人惊喜的发现。")
    [ point_ (topic ++ u "的第" ++ n ++ u "个核心要点")
        [ fact_ (topic ++ u "的具体表现和特征") (u "关键特征");
          fact_ (topic ++ u "相关数据和统计") (u "数据支撑") ];
      point_ (topic ++ u "的第" ++ n ++ u "个关键因素")
        [ fact_ (topic ++ u "影响因素分析") (u "驱动因素");
          fact_ (topic ++ u "市场反应和反馈") (u "市场表现") ];
      point_ (topic ++ u "的第" ++ n ++ u "个发展趋势")
        [ fact_ (topic ++ u "当前发展状况") (u "现状分析");
          fact_ (topic ++ u "未来发展方向") (u "前景展望") ];
      point_ (topic ++ u "的第" ++ n ++ u "个应用案例")
        [ fact_ (topic ++ u "实际应用案例") (u "实践案例");
          fact_ (topic ++ u "成功经验分享") (u "经验总结") ] ].

Definition summary_page (topic : str) : value :=
  page_ (topic ++ u " - 总结")
    (u "经过深入的探讨，我们对" ++ topic
       ++ u "有了全面的了解，现在让我们回顾一下最重要的发现和未来的发展方向。")
    [ point_ (topic ++ u "主要内容回顾")
        [ fact_ (u "涵盖的" ++ topic ++ u "关键知识点") (u "核心要点");
          fact_ (topic ++ u "重要的数据和案例") (u "数据支撑") ];
      point_ (topic ++ u "关键要点总结")
        [ fact_ (topic ++ u "最重要的几个方面") (u "重点内容");
          fact_ (topic ++ u "需要重点关注的内容") (u "关注重点") ];
      point_ (topic ++ u "未来展望")
        [ fact_ (topic ++ u "发展趋势预测") (u "发展前景");
          fact_ (topic ++ u "潜在机遇分析") (u "机会识别") ];
      point_ (topic ++ u "行动建议")
        [ fact_ (topic ++ u "具体实施建议") (u "操作指导");
          fact_ (topic ++ u "下一步行动计划") (u "行动方案") ] ].

(** The topic is printed first, outside any handler. Then [pages] starts
    empty, gets the introduction, one page per [i] of
    [range(1, num_pages - 1)], and the summary when [num_pages > 1]. *)
Definition _generate_fallback_content (encodable : N -> bool) (self : t)
                                      (topic : str) (num_pages : Z)
  : res (list value) :=
  _ <- print encodable [topic] ;;
  let pages := [] in
  let pages := pages ++ [intro_page topic] in
  let pages :=
    fold_left (fun pages i => pages ++ [part_page topic i])
              (range 1 (num_pages - 1)) pages in
  Ok (if 1 <? num_pages then pages ++ [summary_page topic] else pages).

(** *** _extract_content_from_text *)

(** The page and the point under construction. [current_point] is a reference
    to a dict that was appended to [current_page["points"]]; it is kept here
    as the index of that dict in the list, so that a write through it is a
    write into the page. *)
Record point : Type := mk_point {
  main_point : str;
  supporting_facts : list value
}.

Record page : Type := mk_page {
  title : str;
  summary : str;
  points : list point
}.

Record scan : Type := mk_scan {
  pages : list page;
  current_page : option page;
  current_point : option nat
}.

Definition point_value (p : point) : value :=
  point_ (main_point p) (supporting_facts p).

Definition page_value (p : page) : value :=
  page_ (title p) (summary p) (map point_value (points p)).

Definition page_keywords : list str :=
  [u "第"; u "page"; u "slide"; u "页"].
Definition summary_marks : list str :=
  [u "总结"; u "summary"; u "概述"].
Definition bullet_marks : list str :=
  [u "-"; u "•"; u "*"; u "1."; u "2."; u "3."].
Definition indent_marks : list str :=
  [u "  "; [9%N]; u "  -"; u "  •"].

Definition is_some {A} (o : option A) : bool :=
  match o with Some _ => true | None => false end.

(** [current_point["supporting_facts"].append(fact)] *)
Fixpoint append_fact (ps : list point) (k : nat) (fact : value) : list point :=
  match ps, k with
  | [], _ => []
  | p :: ps', O =>
    mk_point (main_point p) (supporting_facts p ++ [fact]) :: ps'
  | p :: ps', S k' => p :: append_fact ps' k' fact
  end.

Section Extract.

(** [str.lower] *)
Variable lower : str -> str.

(** The body of [for line in lines]. *)
Definition scan_line (st : scan) (line : str) : scan :=
  let line := strip line in
  match line with
  | [] => st
  | _ :: _ =>
    if existsb (fun keyword => contains (lower line) keyword) page_keywords
    then
      mk_scan
        (match current_page st with
         | Some cp => pages st ++ [cp]
         | None => pages st
         end)
        (Some (mk_page line (line ++ u "的主要内容概述") []))
        None
    else if is_some (current_page st) && startswith_any line summary_marks
    then
      let summary :=
        if mem colon line then after_first colon line else line in
      mk_scan (pages st)
        (option_map (fun cp => mk_page (title cp) summary (points cp))
                    (current_page st))
        (current_point st)
    else if is_some (current_page st) && startswith_any line bullet_marks
    then
      let point_text := lstrip_chars line (u "-•*123456789. ") in
      match point_text, current_page st with
      | _ :: _, Some cp =>
        mk_scan (pages st)
          (Some (mk_page (title cp) (summary cp)
                   (points cp ++ [mk_point point_text []])))
          (Some (List.length (points cp)))
      | _, _ => st
      end
    else if is_some (current_point st) && startswith_any line indent_marks
    then
      let fact := lstrip_chars line ([32%N; 9%N] ++ u "-•*") in
      match fact, current_page st, current_point st with
      | _ :: _, Some cp, Some k =>
        mk_scan (pages st)
          (Some (mk_page (title cp) (summary cp)
                   (append_fact (points cp) k (VStr fact))))
          (current_point st)
      | _, _, _ => st
      end
    else st
  end.

(** The slide appended by one round of the [while] loop, [n] being
    [len(pages) + 1] at that time. *)
Definition padding_page (n : Z) : value :=
  let n := str_of_int n in
  page_ (u "第" ++ n ++ u "页")
    (u "第" ++ n ++ u "页的主要内容概述")
    (map (fun i =>
            let k := str_of_int (i + 1) in
            point_ (u "要点" ++ n ++ u "-" ++ k)
              [ fact_ (u "事实" ++ n ++ u "-" ++ k ++ u "-1") (u "简要说明");
                fact_ (u "事实" ++ n ++ u "-" ++ k ++ u "-2") (u "简要说明") ])
         (range 0 3)).

(** [while len(pages) < num_pages: pages.append(...)], at most [fuel]
    rounds. *)
Fixpoint pad_pages (fuel : nat) (pages : list value) (num_pages : Z)
  : list value :=
  match fuel with
  | O => pages
  | S fuel' =>
    if len pages <? num_pages
    then pad_pages fuel' (pages ++ [padding_page (len pages + 1)]) num_pages
    else pages
  end.

(** The pages found by the pass over the lines. *)
Definition scanned_pages (text : str) : list page :=
  let lines := split newline text in
  let st := fold_left scan_line lines (mk_scan [] None None) in
  match current_page st with
  | Some cp => pages st ++ [cp]
  | None => pages st
  end.

Definition _extract_content_from_text (self : t) (text : value)
                                      (num_pages : Z) : res (list value) :=
  text <- as_str text ;;
  let pages := map page_value (scanned_pages text) in
  let pages := pad_pages (Z.to_nat num_pages) pages num_pages in
  let pages :=
    if len pages >? num_pages then slice_to num_pages pages else pages in
  Ok pages.

End Extract.

(** *** _parse_outline_response and generate_outline *)

Section Outline.

(** The code points that standard output can encode. *)
Variable encodable : N -> bool.

Variable lower : str -> str.

(** [json.loads]; whatever it raises is caught by the same handler, and the
    message of what it raises is ASCII. *)
Variable json_loads : str -> res value.

(** [repr(v)] *)
Variable repr : value -> str.

Definition clean_response (response : str) : str :=
  let cleaned_response := strip response in
  let cleaned_response :=
    if startswith cleaned_response (u "```json")
    then slice_from 7 cleaned_response else cleaned_response in
  let cleaned_response :=
    if endswith cleaned_response (u "```")
    then slice_to (-3) cleaned_response else cleaned_response in
  strip cleaned_response.

(** The [try] block of [_parse_outline_response]: [Ok (Some pages)] when it
    returns, [Ok None] when it runs to its end without returning. The first
    200 characters of the cleaned response are printed before [json.loads]
    runs. *)
Definition parse_json (self : t) (response : value) (num_pages : Z)
  : res (option (list value)) :=
  response <- as_str response ;;
  let cleaned_response := clean_response response in
  _ <- print encodable [slice_to 200 cleaned_response] ;;
  content <- json_loads cleaned_response ;;
  match content with
  | VList content =>
    if len content =? num_pages then Ok (Some content)
    else if len content >? num_pages
    then Ok (Some (slice_to num_pages content))
    else
      fallback_content <-
        _generate_fallback_content encodable self (u "补充内容")
                                   (num_pages - len content) ;;
      Ok (Some (content ++ fallback_content))
  | _ => Ok None
  end.

(** Both handlers print the exception, whose message is ASCII, and go on to
    the extraction. *)
Definition _parse_outline_response (self : t) (response : value)
                                   (num_pages : Z) : res (list value) :=
  match parse_json self response num_pages with
  | Ok (Some pages) => Ok pages
  | Ok None | Raise _ =>
    _extract_content_from_text lower self response num_pages
  end.

(** The [try] block of [generate_outline]: it prints the topic, the first
    200 characters of the response and the result. *)
Definition request_outline (self : t) (post : reply) (topic : str)
                           (num_pages : Z) : res (list value) :=
  _ <- print encodable [topic] ;;
  response <- _call_llm self post ;;
  shown <- preview response ;;
  _ <- print encodable [py_str repr shown] ;;
  result <- _parse_outline_response self response num_pages ;;
  _ <- print encodable [repr (VList result)] ;;
  Ok result.

(** The handler prints the exception, whose message is fixed text or quotes
    what the [try] block printed, and calls the fallback generator. *)
Definition generate_outline (self : t) (post : reply) (topic : str)
                            (num_pages : Z) : res (list value) :=
  match request_outline self post topic num_pages with
  | Ok result => Ok result
  | Raise _ => _generate_fallback_content encodable self topic num_pages
  end.

End Outline.

End LLMApi.

(** ** State and exceptions together *)

(** A computation that reads and writes a state [S] and returns or raises;
    the state reached when it raises is kept, as Python keeps the objects
    mutated so far. *)
Definition SE (S A : Type) : Type := S -> res A * S.

Definition ret {S A} (a : A) : SE S A := fun s => (Ok a, s).

Definition lift {S A} (r : res A) : SE S A := fun s => (r, s).

Definition get {S} : SE S S := fun s => (Ok s, s).

Definition modify {S} (f : S -> S) : SE S unit := fun s => (Ok tt, f s).

Definition sbind {S A B} (m : SE S A) (k : A -> SE S B) : SE S B :=
  fun s =>
    match m s with
    | (Ok a, s') => k a s'
    | (Raise e, s') => (Raise e, s')
    end.

(** [try: m  except Exception: h] *)
Definition try_except {S A} (m : SE S A) (h : SE S A) : SE S A :=
  fun s =>
    match m s with
    | (Ok a, s') => (Ok a, s')
    | (Raise _, s') => h s'
    end.

Notation "x <~ m ;; k" := (sbind m (fun x => k))
  (at level 61, m at next level, right associativity).
Notation "m ;;; k" := (sbind m (fun _ => k))
  (at level 61, right associativity).

Fixpoint for_each {S A} (l : list A) (body : A -> SE S unit) : SE S unit :=
  match l with
  | [] => ret tt
  | x :: l' => body x ;;; for_each l' body
  end.

(** [enumerate(l, start)] *)
Fixpoint enumerate {A} (start : Z) (l : list A) : list (Z * A) :=
  match l with
  | [] => []
  | x :: l' => (start, x) :: enumerate (start + 1) l'
  end.

(** [k in v] for a string [k] *)
Definition py_in (k : str) (v : value) : res bool :=
  match v with
  | VDict d => Ok (dict_has d k)
  | VStr s => Ok (contains s k)
  | VList l =>
    Ok (existsb (fun x => match x with
                          | VStr s => str_eqb s k
                          | _ => false
                          end) l)
  | _ => Raise TypeError
  end.

(** What [for x in v] runs over; [len(v)] succeeds on the same values. *)
Definition py_iter (v : value) : res (list value) :=
  match v with
  | VList l => Ok l
  | VStr s => Ok (map (fun c => VStr [c]) s)
  | VDict d => Ok (map (fun kv => VStr (fst kv)) d)
  | _ => Raise TypeError
  end.

Definition py_len (v : value) : res Z :=
  l <- py_iter v ;; Ok (len l).

(** ** writer/ppt_writer.py *)

Module PPTWriter.

(** *** The presentation objects the writer builds

    Texts are the strings assigned; font sizes and spacings are in points,
    box geometry in tenths of an inch. *)

Inductive alignment : Type := LEFT | CENTER.

Definition rgb : Type := (Z * Z * Z)%type.

Record run : Type := mk_run {
  run_text : str;
  run_size : Z;
  run_rgb : rgb
}.

Record paragraph : Type := mk_paragraph {
  p_text : str;
  p_size : option Z;
  p_bold : bool;
  p_rgb : option rgb;
  p_space_after : option Z;
  p_space_before : option Z;
  p_alignment : option alignment;
  p_runs : list run
}.

Definition frame : Type := list paragraph.

Inductive shape : Type :=
  | Placeholder (ph_type : Z) (content : frame)
  | TextBox (left top width height : Z) (word_wrap : bool) (content : frame).

Record layout : Type := mk_layout {
  name : str;
  placeholders : list Z
}.

Record slide : Type := mk_slide {
  slide_layout : layout;
  shapes : list shape
}.

Record deck : Type := mk_deck {
  slide_layouts : list layout;
  slides : list slide
}.

(** The files written so far, latest first. *)
Definition files : Type := list (str * deck).

Definition empty_paragraph : paragraph :=
  mk_paragraph [] None false None None None None [].

(** [text_frame.clear()] leaves one empty paragraph. *)
Definition cleared : frame := [empty_paragraph].

(** A write through a reference to the object appended last. *)
Definition on_last {A} (f : A -> A) (l : list A) : list A :=
  match rev l with
  | [] => []
  | x :: r => rev r ++ [f x]
  end.

Definition add_paragraph : SE frame unit :=
  modify (fun fr => fr ++ [empty_paragraph]).

Definition set_text (text : str) (p : paragraph) : paragraph :=
  mk_paragraph text (p_size p) (p_bold p) (p_rgb p) (p_space_after p)
               (p_space_before p) (p_alignment p) [].

Definition set_style (size : Z) (color : rgb) (after before : option Z)
                     (al : alignment) (p : paragraph) : paragraph :=
  mk_paragraph (p_text p) (Some size) true (Some color)
               (match after with Some _ => after | None => p_space_after p end)
               (match before with Some _ => before | None => p_space_before p end)
               (Some al) (p_runs p).

Definition add_run (r : run) (p : paragraph) : paragraph :=
  mk_paragraph (p_text p) (p_size p) (p_bold p) (p_rgb p) (p_space_after p)
               (p_space_before p) (p_alignment p) (p_runs p ++ [r]).

(** [self.default_layouts] and [self.default_layouts.get(style, default)] *)
Definition default_layouts : list (str * Z) :=
  [(u "默认", 1); (u "简约", 6); (u "商务", 1)].

Fixpoint table_get (d : list (str * Z)) (k : str) : option Z :=
  match d with
  | [] => None
  | (k', v) :: d' => if str_eqb k' k then Some v else table_get d' k
  end.

Definition default_layouts_get (style : option str) (default : Z) : Z :=
  match style with
  | Some k =>
    match table_get default_layouts k with
    | Some v => v
    | None => default
    end
  | None => default
  end.

(** [l[i]] for a literal index *)
Definition index {A} (l : list A) (i : nat) : res A :=
  match nth_error l i with
  | Some x => Ok x
  | None => Raise IndexError
  end.

(** A text assigned to a shape or a paragraph has to be a [str]. *)
Definition as_text (v : value) : res str :=
  match v with
  | VStr s => Ok s
  | _ => Raise TypeError
  end.

Definition is_placeholder (sh : shape) : bool :=
  match sh with
  | Placeholder _ _ => true
  | TextBox _ _ _ _ _ _ => false
  end.

(** [shape.placeholder_format.type == 1] on a placeholder *)
Definition is_title (sh : shape) : bool :=
  match sh with
  | Placeholder ph_type _ => ph_type =? 1
  | TextBox _ _ _ _ _ _ => false
  end.

(** The placeholder types [add_slide] leaves on the layout (date, footer,
    slide number). *)
Definition latent (ph_type : Z) : bool :=
  (ph_type =? 16) || (ph_type =? 15) || (ph_type =? 13).

Definition new_slide (ly : layout) : slide :=
  mk_slide ly
    (map (fun ph_type => Placeholder ph_type cleared)
         (filter (fun ph_type => negb (latent ph_type)) (placeholders ly))).

(** [prs.slides.add_slide(layout)] *)
Definition add_slide (ly : layout) : SE deck unit :=
  modify (fun prs => mk_deck (slide_layouts prs) (slides prs ++ [new_slide ly])).

(** A change made to the slide that [add_slide] returned. *)
Definition on_slide (f : list shape -> list shape) : SE deck unit :=
  modify (fun prs =>
            mk_deck (slide_layouts prs)
              (on_last (fun sl => mk_slide (slide_layout sl) (f (shapes sl)))
                       (slides prs))).

Fixpoint lookup_file (fs : files) (path : str) : option deck :=
  match fs with
  | [] => None
  | (p, d) :: fs' => if str_eqb p path then Some d else lookup_file fs' path
  end.

(** [Presentation(path)], for a path that is a file name to the operating
    system; a path that names no package raises, and the message of the
    exception quotes the path as it is. *)
Definition open_presentation (path : str) : SE files deck :=
  fun fs =>
    match lookup_file fs path with
    | Some d => (Ok d, fs)
    | None => (Raise (PackageNotFoundError path), fs)
    end.

(** The first placeholder of type 1, looked for from the front; asking a
    shape that is no placeholder for its [placeholder_format] raises
    [ValueError], which [hasattr] does not absorb. *)
Fixpoint find_title (shapes : list shape) : res (option nat) :=
  match shapes with
  | [] => Ok None
  | sh :: rest =>
    if negb (is_placeholder sh) then Raise ValueError
    else if is_title sh then Ok (Some O)
    else k <- find_title rest ;; Ok (option_map S k)
  end.

Fixpoint update_at {A} (l : list A) (k : nat) (f : A -> A) : list A :=
  match l, k with
  | [], _ => []
  | x :: l', O => f x :: l'
  | x :: l', S k' => x :: update_at l' k' f
  end.

Definition title_style : paragraph -> paragraph :=
  set_style 28 (44, 62, 80) None None CENTER.

Definition set_content (f : frame -> frame) (sh : shape) : shape :=
  match sh with
  | Placeholder ph_type content => Placeholder ph_type (f content)
  | TextBox l t w h ww content => TextBox l t w h ww (f content)
  end.

(** [shape.text = text]: the text body is emptied, then gets one paragraph
    per line of the text. *)
Definition clear_content (fr : frame) : frame := [].

Definition shape_text (text : str) (fr : frame) : frame :=
  map (fun line => set_text line empty_paragraph) (split newline text).

(** [_format_title]: the style goes on [paragraphs[0]]. *)
Definition _format_title (sh : shape) : shape :=
  set_content (fun fr => update_at fr 0 title_style) sh.

Section Writer.

(** The code points that standard output can encode. *)
Variable encodable : N -> bool.

(** [str.lower] *)
Variable lower : str -> str.

(** [repr(v)], which is [str(v)] for a [v] that is not a [str] *)
Variable repr : value -> str.

(** [Presentation()]: the deck of the library's default template *)
Variable default_presentation : deck.

(** Whether [prs.save(path)] succeeds *)
Variable writable : str -> bool.

(** [f"{v}"] *)
Definition format_value (v : value) : str :=
  match v with
  | VStr s => s
  | _ => repr v
  end.

(** *** _fill_content_with_formatting *)

Definition fact_font_size : Z := 11.
Definition fact_color : rgb := (52, 73, 94).

(** The body of [for fact in facts]: the run added to [p]. *)
Definition fact_run (fact : value) : run :=
  match fact with
  | VDict d =>
    match dict_get d (u "fact"), dict_get d (u "explanation") with
    | Some f, Some e =>
      mk_run ([newline] ++ u "   • " ++ format_value f ++ u ": "
                ++ format_value e)
             fact_font_size fact_color
    | _, _ =>
      mk_run ([newline] ++ u "   • " ++ format_value fact)
             fact_font_size fact_color
    end
  | _ =>
    mk_run ([newline] ++ u "   • " ++ format_value fact)
           fact_font_size fact_color
  end.

Definition add_fact (fact : value) : SE frame unit :=
  modify (on_last (add_run (fact_run fact))).

Definition simple_point (i : Z) (point : value) : SE frame unit :=
  add_paragraph ;;;
  modify (on_last (set_text (str_of_int i ++ u ". " ++ format_value point))) ;;;
  modify (on_last (set_style 13 (44, 62, 80) (Some 6) None LEFT)).

(** The body of [for i, point in enumerate(page_content["points"], 1)]. *)
Definition add_point (i : Z) (point : value) : SE frame unit :=
  match point with
  | VDict d =>
    match dict_get d (u "main_point") with
    | Some main_point =>
      add_paragraph ;;;
      modify (on_last (set_text (str_of_int i ++ u ". "
                                   ++ format_value main_point))) ;;;
      modify (on_last (set_style 13 (44, 62, 80) (Some 4) (Some 6) LEFT)) ;;;
      match dict_get d (u "supporting_facts") with
      | Some facts =>
        facts <~ lift (py_iter facts) ;;
        for_each facts add_fact
      | None => ret tt
      end
    | None => simple_point i point
    end
  | _ => simple_point i point
  end.

Definition add_summary (page_content : value) : SE frame unit :=
  has_summary <~ lift (py_in (u "summary") page_content) ;;
  if has_summary : bool then
    add_paragraph ;;;
    summary <~ lift (getitem page_content (u "summary")) ;;
    modify (on_last (set_text (u "📋 " ++ format_value summary))) ;;;
    modify (on_last (set_style 14 (52, 73, 94) (Some 8) None LEFT))
  else ret tt.

Definition add_points (page_content : value) : SE frame unit :=
  has_points <~ lift (py_in (u "points") page_content) ;;
  if has_points : bool then
    points <~ lift (getitem page_content (u "points")) ;;
    _ <~ lift (py_len points) ;;
    points <~ lift (py_iter points) ;;
    for_each (enumerate 1 points) (fun ip => add_point (fst ip) (snd ip))
  else ret tt.

(** The text frame of the fresh box after the call; what was added before an
    exception stays. *)
Definition _fill_content_with_formatting (page_content : value) : frame :=
  snd (try_except (add_summary page_content ;;; add_points page_content)
                  (ret tt) cleared).

(** *** _create_custom_content_box and _set_slide_title *)

(** The first loop asks every shape for its [placeholder_format]; on a shape
    that is no placeholder that raises and the slide is left as it was. *)
Definition _create_custom_content_box (page_content : value)
                                      (shapes : list shape) : list shape :=
  if forallb is_placeholder shapes then
    let original_placeholders := shapes in
    let txBox :=
      TextBox 5 12 90 55 true (_fill_content_with_formatting page_content) in
    filter is_title original_placeholders ++ [txBox]
  else shapes.

(** The [try] block of [_set_slide_title]; it starts by printing the title.
    An assignment of something that is no [str] to the text of the
    placeholder fails after the text body was emptied. *)
Definition set_title_body (title_text : value) : SE (list shape) unit :=
  lift (print encodable [format_value title_text]) ;;;
  shapes <~ get ;;
  title_placeholder <~ lift (find_title shapes) ;;
  match title_placeholder with
  | Some k =>
    modify (fun shapes => update_at shapes k (set_content clear_content)) ;;;
    text <~ lift (as_text title_text) ;;
    modify (fun shapes =>
              update_at shapes k (set_content (shape_text text))) ;;;
    modify (fun shapes => update_at shapes k _format_title)
  | None =>
    modify (fun shapes => shapes ++ [TextBox 5 2 90 8 false cleared]) ;;;
    modify (on_last (set_content (fun fr => fr ++ [empty_paragraph]))) ;;;
    text <~ lift (as_text title_text) ;;
    modify (on_last (set_content (on_last (set_text text)))) ;;;
    modify (on_last (set_content (on_last title_style)))
  end.

Definition _set_slide_title (title_text : value) (shapes : list shape)
  : list shape :=
  snd (try_except (set_title_body title_text) (ret tt) shapes).

(** *** write_ppt *)

Definition save (prs : deck) (path : str) : SE files unit :=
  fun fs =>
    if writable path then (Ok tt, (path, prs) :: fs)
    else (Raise (PermissionError path), fs).

(** The body of [for page in formatted_content]. *)
Definition write_page (page : value) : SE deck unit :=
  prs <~ get ;;
  ly <~ lift (index (slide_layouts prs) 1) ;;
  add_slide ly ;;;
  on_slide (_create_custom_content_box page) ;;;
  title <~ lift (getitem page (u "title")) ;;
  on_slide (_set_slide_title title).

Definition write_ppt (formatted_content : list value) (output_path : str)
                     (style : option str) : SE files str :=
  let prs := default_presentation in
  let layout_index := default_layouts_get style 1 in
  match for_each formatted_content write_page prs with
  | (Ok _, prs) => save prs output_path ;;; ret output_path
  | (Raise e, _) => lift (Raise e)
  end.

(** *** write_ppt_with_template *)

Definition title_names : list str :=
  [u "title slide"; u "标题幻灯片"; u "title"].
Definition content_names : list str :=
  [u "title and content"; u "标题和内容"; u "content"].

(** The two tests of the loops of [_find_best_layout]. *)
Definition title_like (ly : layout) : bool :=
  existsb (str_eqb (lower (name ly))) title_names
  || (len (placeholders ly) =? 1).

Definition content_like (ly : layout) : bool :=
  existsb (str_eqb (lower (name ly))) content_names
  || (len (placeholders ly) >=? 2).

Definition _find_best_layout (layouts : list layout) (layout_type : str)
  : option layout :=
  let found :=
    if str_eqb layout_type (u "title") then find title_like layouts
    else find content_like layouts in
  match found with
  | Some ly => Some ly
  | None =>
    match layouts with
    | ly :: _ => Some ly
    | [] => None
    end
  end.

Definition _fill_slide_content_with_template (page_content : value)
                                             (shapes : list shape)
  : list shape :=
  let shapes := _create_custom_content_box page_content shapes in
  match getitem page_content (u "title") with
  | Ok title => _set_slide_title title shapes
  | Raise _ => shapes
  end.

(** The layout picked for page [i] of the templated deck. *)
Definition pick_layout (title_layout content_layout : option layout)
                       (i : Z) (new_prs : deck) : res layout :=
  match (i =? 0), title_layout with
  | true, Some ly => Ok ly
  | _, _ =>
    match content_layout with
    | Some ly => Ok ly
    | None => index (slide_layouts new_prs) 1
    end
  end.

Definition template_page (title_layout content_layout : option layout)
                         (ip : Z * value) : SE deck unit :=
  new_prs <~ get ;;
  slide_layout <~ lift (pick_layout title_layout content_layout (fst ip)
                                    new_prs) ;;
  add_slide slide_layout ;;;
  on_slide (_fill_slide_content_with_template (snd ip)).

(** The [try] block of [write_ppt_with_template]. *)
Definition build_with_template (formatted_content : list value)
                               (template_path output_path : str)
  : SE files str :=
  prs <~ open_presentation template_path ;;
  let layouts := slide_layouts prs in
  let title_layout := _find_best_layout layouts (u "title") in
  let content_layout := _find_best_layout layouts (u "content") in
  new_prs <~ open_presentation template_path ;;
  match for_each (enumerate 0 formatted_content)
                 (template_page title_layout content_layout) new_prs with
  | (Ok _, new_prs) => save new_prs output_path ;;; ret output_path
  | (Raise e, _) => lift (Raise e)
  end.

(** The handler prints the exception and then calls [write_ppt]. *)
Definition write_ppt_with_template (formatted_content : list value)
                                   (template_path output_path : str)
                                   (style : option str) : SE files str :=
  fun fs =>
    match build_with_template formatted_content template_path output_path fs
    with
    | (Ok path, fs') => (Ok path, fs')
    | (Raise e, fs') =>
      (lift (print encodable (exn_data repr e)) ;;;
       write_ppt formatted_content output_path style) fs'
    end.

End Writer.

End PPTWriter.

(** ** Concrete inputs for the examples *)

Import LLMApi PPTWriter.

(** [str.lower] on ASCII text. *)
Definition ascii_lower (s : str) : str :=
  map (fun c => if ((65 <=? c) && (c <=? 90))%N then (c + 32)%N else c) s.

(** [json.loads] on two texts; anything else is taken as malformed. *)
Definition loads_numbers (s : str) : res value :=
  if str_eqb s (u "[1, 2, 3, 4, 5]")
  then Ok (VList [VInt 1; VInt 2; VInt 3; VInt 4; VInt 5])
  else if str_eqb s (u "[1, 2]") then Ok (VList [VInt 1; VInt 2])
  else Raise JSONDecodeError.

Definition client : LLMApi.t :=
  LLMApi.mk (Some (u "sk-test")) (u "https://api.openai.com/v1")
            (u "gpt-3.5-turbo").

Definition client_without_key : LLMApi.t :=
  LLMApi.mk None (u "https://api.openai.com/v1") (u "gpt-3.5-turbo").

(** A 200 response whose [choices[0].message.content] is [content]. *)
Definition completion (content : value) : reply :=
  Response 200 []
    (Ok (VDict [(u "choices",
                 VList [VDict [(u "message",
                                VDict [(u "content", content)])]])])).

(** A response with a page line, a bullet and an indented line. *)
Definition indented_text : str :=
  u "page 1" ++ [newline] ++ u "- point" ++ [newline] ++ u "  fact".

(** [repr(v)] stand-in: a fixed ASCII text. *)
Definition plain_repr (v : value) : str := u "<value>".

(** A UTF-8 standard output: every code point but the surrogates. *)
Definition utf8_stdout (c : N) : bool :=
  negb ((55296 <=? c) && (c <=? 57343))%N.

(** A string that UTF-8 cannot encode: one lone surrogate, U+D800. *)
Definition lone_surrogate : str := [55296%N].

(** The name of a file that is the one byte 128, as Python decodes file
    names: the code point U+DC80, which UTF-8 cannot encode either. *)
Definition undecodable_name : str := [56448%N].

(** The JSON text of a list of one string, the string being the lone
    surrogate, and a [json.loads] that decodes it. *)
Definition surrogate_json : str := [91; 34; 55296; 34; 93]%N.

Definition loads_surrogate (s : str) : res value :=
  if str_eqb s surrogate_json then Ok (VList [VStr lone_surrogate])
  else Raise JSONDecodeError.

(** The same JSON text in a labelled fence, after 193 spaces: the surrogate
    is at index 202, past the first 200 characters of the response and
    among the first 200 of the cleaned response. *)
Definition fenced_surrogate_json : str :=
  u "```json" ++ repeat 32%N 193 ++ surrogate_json ++ u "```".

Definition always_writable (path : str) : bool := true.

(** A deck laid out like the default template of the library: eleven
    layouts, each a name and its placeholder types. *)
Definition stock_deck : deck :=
  mk_deck
    [ mk_layout (u "Title Slide") [3; 4; 16; 15; 13];
      mk_layout (u "Title and Content") [1; 7; 16; 15; 13];
      mk_layout (u "Section Header") [1; 2; 16; 15; 13];
      mk_layout (u "Two Content") [1; 7; 7; 16; 15; 13];
      mk_layout (u "Comparison") [1; 2; 7; 2; 7; 16; 15; 13];
      mk_layout (u "Title Only") [1; 16; 15; 13];
      mk_layout (u "Blank") [16; 15; 13];
      mk_layout (u "Content with Caption") [1; 7; 2; 16; 15; 13];
      mk_layout (u "Picture with Caption") [1; 18; 2; 16; 15; 13];
      mk_layout (u "Title and Vertical Text") [1; 2; 16; 15; 13];
      mk_layout (u "Vertical Title and Text") [1; 2; 16; 15; 13] ]
    [].

(** A template with two layouts, neither of them content-like. *)
Definition bare_layout : layout := mk_layout (u "Blank") [].
Definition title_only_layout : layout := mk_layout (u "Title Only") [1].
Definition small_template : deck :=
  mk_deck [bare_layout; title_only_layout] [].

Definition template_file : str := u "template.pptx".
Definition output_file : str := u "out.pptx".

Definition small_template_on_disk : files := [(template_file, small_template)].

(** A two-slide outline and a one-slide outline. *)
Definition two_slides : list value :=
  [intro_page (u "Test"); summary_page (u "Test")].
Definition one_slide : list value :=
  [intro_page (u "Test")].

(** The names of the layouts of the slides of the deck saved at [path]. *)
Definition layouts_used (path : str) (fs : files) : list str :=
  match lookup_file fs path with
  | Some d => map (fun sl => name (slide_layout sl)) (slides d)
  | None => []
  end.

(** ** Measures and predicates used in the statements *)

(** The number of supporting facts of each point of a slide ([-1] for a point
    without a list of facts). *)
Definition facts_per_point (slide : value) : list Z :=
  match getitem slide (u "points") with
  | Ok (VList points) =>
    map (fun point =>
           match getitem point (u "supporting_facts") with
           | Ok (VList facts) => len facts
           | _ => -1
           end) points
  | _ => []
  end.

(** No point of the page has a supporting fact. *)
Definition factless (p : page) : Prop :=
  Forall (fun pt => supporting_facts pt = []) (points p).

(** No point found so far by the extraction has a supporting fact. *)
Definition scan_factless (st : scan) : Prop :=
  Forall factless (pages st) /\
  match current_page st with
  | Some cp => factless cp
  | None => True
  end.

(** ** The rest of the [LLMApi] object (llm/llm_api.py) *)

(** An object together with its [headers["Authorization"]] entry, which
    [__init__] and [set_config] write. *)
Record llm_object : Type := mk_object {
  fields : LLMApi.t;
  authorization : str
}.

(** [__init__(api_key, base_url, model)]; [None] for [model] stands for the
    argument left out. *)
Definition __init__ (api_key base_url model : option str) : llm_object :=
  mk_object
    (LLMApi.mk api_key
       (match base_url with
        | Some (c :: b) => c :: b
        | _ => u "https://api.openai.com/v1"
        end)
       (match model with
        | Some m => m
        | None => u "gpt-3.5-turbo"
        end))
    (match api_key with
     | Some (c :: k) => u "Bearer " ++ c :: k
     | _ => []
     end).

Definition set_config (self : llm_object) (api_key base_url model : option str)
  : llm_object :=
  let self :=
    match api_key with
    | Some k =>
      mk_object (LLMApi.mk (Some k) (LLMApi.base_url (fields self))
                           (LLMApi.model (fields self)))
                (u "Bearer " ++ k)
    | None => self
    end in
  let self :=
    match base_url with
    | Some b =>
      mk_object (LLMApi.mk (LLMApi.api_key (fields self)) b
                           (LLMApi.model (fields self)))
                (authorization self)
    | None => self
    end in
  match model with
  | Some m =>
    mk_object (LLMApi.mk (LLMApi.api_key (fields self))
                         (LLMApi.base_url (fields self)) m)
              (authorization self)
  | None => self
  end.

(** [test_connection], [post] being what [requests.post] did with the test
    request. *)
Definition test_connection (self : LLMApi.t) (post : reply) : bool :=
  match
    response <- _call_llm self post ;;
    py_in (u "连接测试成功") response
  with
  | Ok found => found
  | Raise _ => false
  end.

(** The header that [__init__] derives from the key. *)
Definition header_consistent (self : llm_object) : Prop :=
  authorization self
  = match LLMApi.api_key (fields self) with
    | Some (c :: k) => u "Bearer " ++ c :: k
    | _ => []
    end.

(** ** get_template_info (writer/ppt_writer.py) *)

Definition layout_entry (il : Z * layout) : value :=
  VDict [(u "index", VInt (fst il));
         (u "name", VStr (name (snd il)));
         (u "placeholders", VInt (len (placeholders (snd il))))].

(** [str_of_exn] is [str(e)] for the exception caught. *)
Definition get_template_info (str_of_exn : exn -> str) (template_path : str)
                             (fs : files) : value :=
  match open_presentation template_path fs with
  | (Ok prs, _) =>
    let layouts := slide_layouts prs in
    let layout_info :=
      fold_left (fun layout_info il => layout_info ++ [layout_entry il])
                (enumerate 0 layouts) [] in
    VDict [(u "total_layouts", VInt (len layouts));
           (u "layouts", VList layout_info)]
  | (Raise e, _) => VDict [(u "error", VStr (str_of_exn e))]
  end.

(** ** More measures and predicates *)

(** A line that starts a slide: not blank, and with a page keyword in its
    lower-cased text. *)
Definition is_page_line (lower : str -> str) (line : str) : bool :=
  match strip line with
  | [] => false
  | c :: r =>
    existsb (fun keyword => contains (lower (c :: r)) keyword) page_keywords
  end.

(** The pages of a scan state, the one under construction last. *)
Definition all_pages (st : scan) : list page :=
  pages st ++ match current_page st with
              | Some cp => [cp]
              | None => []
              end.

(** A point text as the bullet branch leaves it: not empty, and not starting
    with a character that [lstrip] removes. *)
Definition trimmed_point (pt : point) : Prop :=
  exists c r, main_point pt = c :: r /\ mem c (u "-•*123456789. ") = false.

(** The paragraph of a point given as a dict with a list of facts. *)
Definition point_paragraph (repr : value -> str) (i : Z) (main_point : value)
                           (facts : list value) : paragraph :=
  mk_paragraph (str_of_int i ++ u ". " ++ format_value repr main_point)
               (Some 13) true (Some (44, 62, 80)) (Some 4) (Some 6)
               (Some LEFT) (map (fact_run repr) facts).

(** The paragraph of the summary. *)
Definition summary_paragraph (repr : value -> str) (summary : value)
  : paragraph :=
  mk_paragraph (u "📋 " ++ format_value repr summary)
               (Some 14) true (Some (52, 73, 94)) (Some 8) None
               (Some LEFT) [].

(** The title paragraph that [_set_slide_title] leaves in a placeholder. *)
Definition title_paragraph (text : str) : paragraph :=
  mk_paragraph text (Some 28) true (Some (44, 62, 80)) None None
               (Some CENTER) [].

(** A point dict and a slide dict with any values under their keys. *)
Definition point_dict (main_point facts : value) : value :=
  VDict [(u "main_point", main_point); (u "supporting_facts", facts)].

Definition slide_dict (title summary : value) (points : list value) : value :=
  VDict [(u "title", title); (u "summary", summary);
         (u "points", VList points)].

(** [b or a] on optional arguments: the later one when it is given. *)
Definition or_else {A} (b a : option A) : option A :=
  match b with
  | Some _ => b
  | None => a
  end.

(** The main points of a slide, in order. *)
Definition main_points (slide : value) : list value :=
  match getitem slide (u "points") with
  | Ok (VList points) =>
    map (fun point =>
           match getitem point (u "main_point") with
           | Ok main_point => main_point
           | Raise _ => VNone
           end) points
  | _ => []
  end.

(** A paragraph that has its text and nothing else. *)
Definition plain_paragraph (text : str) : paragraph :=
  mk_paragraph text None false None None None None [].

(** * Properties *)

(** ** Lists and strings *)

Lemma len_app {A} (a b : list A) : len (a ++ b) = len a + len b.
Proof. unfold len. rewrite length_app. lia. Qed.

Lemma len_nonneg {A} (l : list A) : 0 <= len l.
Proof. unfold len. lia. Qed.

Lemma range_length (lo hi : Z) : List.length (range lo hi) = Z.to_nat (hi - lo).
Proof. unfold range. now rewrite length_map, length_seq. Qed.

Lemma range_nil (lo hi : Z) : hi <= lo -> range lo hi = [].
Proof.
  intros H. unfold range. replace (Z.to_nat (hi - lo)) with O by lia.
  reflexivity.
Qed.

Lemma range_cons (lo hi : Z) : lo < hi -> range lo hi = lo :: range (lo + 1) hi.
Proof.
  intros H. unfold range.
  replace (Z.to_nat (hi - lo)) with (S (Z.to_nat (hi - (lo + 1)))) by lia.
  cbn [seq map]. f_equal; [lia|].
  rewrite <- seq_shift, map_map. apply map_ext. intros k. lia.
Qed.

Lemma fold_left_snoc {A B} (f : B -> A) (l : list B) (init : list A) :
  fold_left (fun acc i => acc ++ [f i]) l init = init ++ map f l.
Proof.
  revert init. induction l as [|x l IH]; intros init; simpl.
  - now rewrite app_nil_r.
  - rewrite IH, <- app_assoc. reflexivity.
Qed.

Lemma slice_to_firstn {A} (n : Z) (l : list A) :
  0 <= n -> slice_to n l = firstn (Z.to_nat n) l.
Proof.
  intros Hn. unfold slice_to.
  destruct (0 <=? n) eqn:E; [reflexivity | apply Z.leb_gt in E; lia].
Qed.

Lemma slice_to_len {A} (n : Z) (l : list A) :
  0 <= n <= len l -> len (slice_to n l) = n.
Proof.
  intros [Hn Hl]. rewrite slice_to_firstn by assumption.
  unfold len in *. rewrite length_firstn. lia.
Qed.

Lemma dropwhile_suffix {A} (f : A -> bool) (l : list A) :
  exists pre, l = pre ++ dropwhile f l.
Proof.
  induction l as [|x l [pre IH]]; simpl.
  - now exists [].
  - destruct (f x).
    + exists (x :: pre). simpl. now f_equal.
    + now exists [].
Qed.

Lemma dropwhile_head {A} (f : A -> bool) (l : list A) (x : A) (r : list A) :
  dropwhile f l = x :: r -> f x = false.
Proof.
  induction l as [|y l IH]; simpl; [discriminate|].
  destruct (f y) eqn:E; [exact IH|].
  intros H. injection H as -> _. exact E.
Qed.

(** A stripped line never starts with white space. *)
Lemma strip_head (s : str) (c : N) (r : str) :
  strip s = c :: r -> isspace c = false.
Proof.
  unfold strip, rstrip, lstrip. intros H.
  destruct (dropwhile_suffix isspace (rev (dropwhile isspace s))) as [pre Hpre].
  apply (f_equal (@rev N)) in Hpre.
  rewrite rev_involutive, rev_app_distr, H in Hpre.
  simpl in Hpre. apply dropwhile_head in Hpre. exact Hpre.
Qed.

(** ** Standard output *)

Lemma print_returns (encodable : N -> bool) (data : list str) :
  forallb (print_ok encodable) data = true -> print encodable data = Ok tt.
Proof. intros H. unfold print. now rewrite H. Qed.

Lemma print_one (encodable : N -> bool) (text : str) :
  print encodable [text]
  = if print_ok encodable text then Ok tt else Raise UnicodeEncodeError.
Proof. unfold print. cbn. now rewrite andb_true_r. Qed.

(** ** Outline recovery: lengths *)

Section OutlineFacts.

Variable encodable : N -> bool.
Variable lower : str -> str.
Variable json_loads : str -> res value.
Variable repr : value -> str.

(** The fallback generator as one expression. *)
Lemma fallback_unfold (self : LLMApi.t) (topic : str) (num_pages : Z) :
  _generate_fallback_content encodable self topic num_pages =
  if print_ok encodable topic
  then Ok (intro_page topic :: map (part_page topic) (range 1 (num_pages - 1))
             ++ (if 1 <? num_pages then [summary_page topic] else []))
  else Raise UnicodeEncodeError.
Proof.
  unfold _generate_fallback_content. rewrite print_one, fold_left_snoc.
  destruct (print_ok encodable topic); [|reflexivity]. cbn [bind].
  destruct (1 <? num_pages); simpl; [reflexivity | now rewrite app_nil_r].
Qed.

Lemma fallback_len (self : LLMApi.t) (topic : str) (num_pages : Z)
                   (pages : list value) :
  _generate_fallback_content encodable self topic num_pages = Ok pages ->
  len pages = Z.max 1 num_pages.
Proof.
  rewrite fallback_unfold.
  destruct (print_ok encodable topic); [|discriminate].
  intros H. injection H as <-. unfold len. simpl.
  rewrite length_app, length_map, range_length.
  destruct (1 <? num_pages) eqn:E; simpl.
  - apply Z.ltb_lt in E. lia.
  - apply Z.ltb_ge in E. lia.
Qed.

(** The [while] loop stops with its guard false when it has
    [num_pages - len(pages)] rounds to run. *)
Lemma pad_pages_len (fuel : nat) (pages : list value) (num_pages : Z) :
  num_pages - len pages <= Z.of_nat fuel ->
  len (pad_pages fuel pages num_pages) = Z.max (len pages) num_pages.
Proof.
  revert pages. induction fuel as [|fuel IH]; intros pages Hf; simpl.
  - lia.
  - destruct (len pages <? num_pages) eqn:E.
    + apply Z.ltb_lt in E. rewrite IH; rewrite len_app; unfold len; simpl.
      * unfold len in E. lia.
      * unfold len in Hf. lia.
    + apply Z.ltb_ge in E. lia.
Qed.

Lemma extract_len (self : LLMApi.t) (text : value) (num_pages : Z)
                  (pages : list value) :
  0 <= num_pages ->
  _extract_content_from_text lower self text num_pages = Ok pages ->
  len pages = num_pages.
Proof.
  intros Hn. unfold _extract_content_from_text.
  destruct text; simpl; try discriminate.
  set (found := map page_value (scanned_pages lower s)).
  assert (Hpad : len (pad_pages (Z.to_nat num_pages) found num_pages)
                 = Z.max (len found) num_pages).
  { apply pad_pages_len. pose proof (len_nonneg found). lia. }
  destruct (len (pad_pages (Z.to_nat num_pages) found num_pages) >? num_pages)
    eqn:E; intros H; injection H as <-.
  - apply slice_to_len. apply Z.gtb_lt in E. lia.
  - pose proof (Zgt_cases
                  (len (pad_pages (Z.to_nat num_pages) found num_pages))
                  num_pages) as C.
    rewrite E in C. lia.
Qed.

(** On a [str] the extraction returns. *)
Lemma extract_str_returns (self : LLMApi.t) (text : str) (num_pages : Z) :
  exists pages,
    _extract_content_from_text lower self (VStr text) num_pages = Ok pages.
Proof. unfold _extract_content_from_text. simpl. eexists. reflexivity. Qed.

Lemma parse_json_len (self : LLMApi.t) (response : value) (num_pages : Z)
                     (pages : list value) :
  0 <= num_pages ->
  parse_json encodable json_loads self response num_pages = Ok (Some pages) ->
  len pages = num_pages.
Proof.
  intros Hn. unfold parse_json.
  destruct (as_str response) as [s|]; cbn [bind]; [|discriminate].
  destruct (print encodable [slice_to 200 (clean_response s)]);
    cbn [bind]; [|discriminate].
  destruct (json_loads (clean_response s)) as [content|]; cbn [bind];
    [|discriminate].
  destruct content; try discriminate.
  destruct (len l =? num_pages) eqn:E1.
  - intros H. injection H as <-. now apply Z.eqb_eq.
  - destruct (len l >? num_pages) eqn:E2.
    + intros H. injection H as <-.
      apply slice_to_len. apply Z.gtb_lt in E2. lia.
    + destruct (_generate_fallback_content encodable self (u "补充内容")
                  (num_pages - len l)) as [padding|] eqn:F; cbn [bind];
        [|discriminate].
      intros H. injection H as <-.
      rewrite len_app, (fallback_len _ _ _ _ F).
      apply Z.eqb_neq in E1.
      pose proof (Zgt_cases (len l) num_pages) as C. rewrite E2 in C. lia.
Qed.

Lemma parse_outline_len (self : LLMApi.t) (response : value) (num_pages : Z)
                        (pages : list value) :
  0 <= num_pages ->
  _parse_outline_response encodable lower json_loads self response num_pages
  = Ok pages ->
  len pages = num_pages.
Proof.
  intros Hn. unfold _parse_outline_response.
  destruct (parse_json encodable json_loads self response num_pages)
    as [[found|]|e] eqn:E.
  - intros H. injection H as <-. eapply parse_json_len; eassumption.
  - now apply extract_len.
  - now apply extract_len.
Qed.

(** On a [str] the parsing returns: what its [try] block raises is
    handled. *)
Lemma parse_outline_str_returns (self : LLMApi.t) (response : str)
                                (num_pages : Z) :
  exists pages,
    _parse_outline_response encodable lower json_loads self (VStr response)
                            num_pages = Ok pages.
Proof.
  unfold _parse_outline_response.
  destruct (parse_json encodable json_loads self (VStr response) num_pages)
    as [[found|]|e]; [now exists found | |]; apply extract_str_returns.
Qed.

Lemma request_outline_len (self : LLMApi.t) (post : reply) (topic : str)
                          (num_pages : Z) (pages : list value) :
  0 <= num_pages ->
  request_outline encodable lower json_loads repr self post topic num_pages
  = Ok pages ->
  len pages = num_pages.
Proof.
  intros Hn. unfold request_outline.
  destruct (print encodable [topic]); cbn [bind]; [|discriminate].
  destruct (_call_llm self post) as [response|]; cbn [bind]; [|discriminate].
  destruct (preview response) as [shown|]; cbn [bind]; [|discriminate].
  destruct (print encodable [py_str repr shown]); cbn [bind]; [|discriminate].
  destruct (_parse_outline_response encodable lower json_loads self response
              num_pages) as [result|] eqn:P; cbn [bind]; [|discriminate].
  destruct (print encodable [repr (VList result)]); cbn [bind];
    [|discriminate].
  intros H. injection H as <-. now apply (parse_outline_len _ _ _ _ Hn P).
Qed.

(** A topic that cannot be printed makes the [try] block raise at once. *)
Lemma request_outline_topic (self : LLMApi.t) (post : reply) (topic : str)
                            (num_pages : Z) :
  print_ok encodable topic = false ->
  request_outline encodable lower json_loads repr self post topic num_pages
  = Raise UnicodeEncodeError.
Proof. intros H. unfold request_outline. now rewrite print_one, H. Qed.

End OutlineFacts.

(** C1. On a lone surrogate as topic and a UTF-8 standard output,
    [generate_outline] raises where exactly [num_pages] slides are expected,
    even with a key and a model that would answer with 5 slides for
    [num_pages = 5]: the topic is printed in the [try] block, before the
    request, and again, by the fallback generator, outside the block. *)
Theorem generate_outline_raises_on_topic :
  generate_outline utf8_stdout ascii_lower loads_numbers plain_repr client
                   (completion (VStr (u "[1, 2, 3, 4, 5]"))) lone_surrogate 5
  = Raise UnicodeEncodeError.
Proof. reflexivity. Qed.

(** X26. For [num_pages] from 1 to 20, whatever [generate_outline] returns
    has exactly [num_pages] slides, on every path, and it returns whenever
    standard output can encode the topic. *)
Theorem generate_outline_length
    (encodable : N -> bool) (lower : str -> str)
    (json_loads : str -> res value) (repr : value -> str)
    (self : LLMApi.t) (post : reply) (topic : str) (num_pages : Z) :
  1 <= num_pages <= 20 ->
  (forall pages,
     generate_outline encodable lower json_loads repr self post topic
                      num_pages = Ok pages ->
     len pages = num_pages) /\
  (print_ok encodable topic = true ->
   exists pages,
     generate_outline encodable lower json_loads repr self post topic
                      num_pages = Ok pages /\
     len pages = num_pages).
Proof.
  intros Hn.
  assert (L : forall pages,
             generate_outline encodable lower json_loads repr self post topic
                              num_pages = Ok pages ->
             len pages = num_pages).
  { intros pages. unfold generate_outline.
    destruct (request_outline encodable lower json_loads repr self post topic
                num_pages) as [result|e] eqn:E.
    - intros H. injection H as <-.
      eapply request_outline_len; [|exact E]. lia.
    - intros H. rewrite (fallback_len _ _ _ _ _ H). lia. }
  split; [exact L|]. intros Hp.
  assert (R : exists pages,
             generate_outline encodable lower json_loads repr self post topic
                              num_pages = Ok pages).
  { unfold generate_outline.
    destruct (request_outline encodable lower json_loads repr self post topic
                num_pages) as [result|e]; [now exists result|].
    rewrite fallback_unfold, Hp. eauto. }
  destruct R as [pages R]. exists pages. split; [exact R | now apply L].
Qed.

Lemma generate_outline_length_witness :
  1 <= 3 <= 20 /\
  print_ok utf8_stdout (u "Test") = true /\
  exists pages,
    generate_outline utf8_stdout ascii_lower loads_numbers plain_repr client
      (completion (VStr (u "[1, 2, 3, 4, 5]"))) (u "Test") 3 = Ok pages /\
    len pages = 3.
Proof.
  split; [lia|]. split; [reflexivity|].
  apply (proj2 (generate_outline_length utf8_stdout ascii_lower loads_numbers
                  plain_repr client
                  (completion (VStr (u "[1, 2, 3, 4, 5]"))) (u "Test") 3
                  ltac:(lia))).
  reflexivity.
Defined.

(** ** Outline recovery: failures *)

(** Each documented failure makes the [try] block of [generate_outline]
    raise. *)
Lemma call_llm_no_key (self : LLMApi.t) (post : reply) :
  api_key_unset self = true -> _call_llm self post = Raise ValueError.
Proof. intros H. unfold _call_llm. now rewrite H. Qed.

Lemma call_llm_connection_failed (self : LLMApi.t) :
  api_key_unset self = false ->
  _call_llm self ConnectionFailed = Raise RequestException.
Proof. intros H. unfold _call_llm. now rewrite H. Qed.

Lemma call_llm_bad_status (self : LLMApi.t) (status_code : Z) (text : str)
                          (json : res value) :
  api_key_unset self = false -> status_code <> 200 ->
  _call_llm self (Response status_code text json) = Raise APIError.
Proof.
  intros H Hs. unfold _call_llm. rewrite H.
  apply Z.eqb_neq in Hs. now rewrite Hs.
Qed.

Lemma call_llm_bad_body (self : LLMApi.t) (text : str) (e : exn) :
  api_key_unset self = false ->
  _call_llm self (Response 200 text (Raise e)) = Raise e.
Proof. intros H. unfold _call_llm. now rewrite H. Qed.

(** A content that is malformed JSON is no failure of the [try] block: the
    handler inside [_parse_outline_response] sends it to the extraction. *)
Lemma malformed_json_is_recovered
    (encodable : N -> bool) (lower : str -> str)
    (json_loads : str -> res value)
    (self : LLMApi.t) (response : str) (num_pages : Z) (e : exn) :
  json_loads (clean_response response) = Raise e ->
  _parse_outline_response encodable lower json_loads self (VStr response)
                          num_pages
  = _extract_content_from_text lower self (VStr response) num_pages.
Proof.
  intros H. unfold _parse_outline_response, parse_json. cbn [as_str bind].
  destruct (print encodable [slice_to 200 (clean_response response)]);
    cbn [bind]; [|reflexivity].
  now rewrite H.
Qed.

(** C2. With no API key, a lone surrogate as topic and a UTF-8 standard
    output, [generate_outline] raises: the handler of the failure calls the
    fallback generator, which prints the topic outside any handler. *)
Theorem generate_outline_propagates :
  api_key_unset client_without_key = true /\
  generate_outline utf8_stdout ascii_lower loads_numbers plain_repr
                   client_without_key ConnectionFailed lone_surrogate 1
  = Raise UnicodeEncodeError.
Proof. split; reflexivity. Qed.

(** X27. In every failure mode of the call (API key unset, connection
    failure, status other than 200, undecodable response body, any exception
    that leaves the call or the parsing of the response), the result of
    [generate_outline] is that of the fallback generator for
    [(topic, num_pages)], and when standard output can encode the topic it
    is the fallback outline. *)
Theorem generate_outline_failure_fallback
    (encodable : N -> bool) (lower : str -> str)
    (json_loads : str -> res value) (repr : value -> str)
    (self : LLMApi.t) (post : reply) (topic : str) (num_pages : Z) :
  api_key_unset self = true
  \/ post = ConnectionFailed
  \/ (exists status_code text json,
        post = Response status_code text json /\ status_code <> 200)
  \/ (exists text e, post = Response 200 text (Raise e))
  \/ (exists e, _call_llm self post = Raise e)
  \/ (exists response e,
        _call_llm self post = Ok response /\
        (preview response = Raise e \/
         _parse_outline_response encodable lower json_loads self response
                                 num_pages = Raise e)) ->
  generate_outline encodable lower json_loads repr self post topic num_pages
  = _generate_fallback_content encodable self topic num_pages /\
  (print_ok encodable topic = true ->
   generate_outline encodable lower json_loads repr self post topic num_pages
   = Ok (intro_page topic :: map (part_page topic) (range 1 (num_pages - 1))
           ++ (if 1 <? num_pages then [summary_page topic] else []))).
Proof.
  intros H.
  assert (R : exists e,
             request_outline encodable lower json_loads repr self post topic
                             num_pages = Raise e).
  { unfold request_outline.
    destruct (print encodable [topic]); cbn [bind]; [|eauto].
    destruct (api_key_unset self) eqn:K.
    { exists ValueError. now rewrite call_llm_no_key. }
    destruct H as [H | [H | [H | [H | [H | H]]]]].
    - discriminate.
    - subst post. exists RequestException.
      now rewrite call_llm_connection_failed.
    - destruct H as (c & tx & j & -> & Hc). exists APIError.
      now rewrite call_llm_bad_status.
    - destruct H as (tx & e & ->). exists e. now rewrite call_llm_bad_body.
    - destruct H as [e ->]. now exists e.
    - destruct H as (response & e & -> & Hp). cbn [bind].
      destruct (preview response) as [shown|e0] eqn:P; cbn [bind];
        [|now exists e0].
      destruct Hp as [Hp | Hp]; [discriminate|].
      destruct (print encodable [py_str repr shown]); cbn [bind]; [|eauto].
      rewrite Hp. now exists e. }
  destruct R as [e R].
  assert (G : generate_outline encodable lower json_loads repr self post topic
                               num_pages
              = _generate_fallback_content encodable self topic num_pages).
  { unfold generate_outline. now rewrite R. }
  split; [exact G|]. intros Hp. rewrite G, fallback_unfold. now rewrite Hp.
Qed.

Lemma generate_outline_failure_fallback_witness :
  api_key_unset client_without_key = true /\
  generate_outline utf8_stdout ascii_lower loads_numbers plain_repr
                   client_without_key ConnectionFailed (u "Test") 3
  = Ok [intro_page (u "Test"); part_page (u "Test") 1;
        summary_page (u "Test")].
Proof.
  split; [reflexivity|].
  apply (proj2 (generate_outline_failure_fallback utf8_stdout ascii_lower
                  loads_numbers plain_repr client_without_key ConnectionFailed
                  (u "Test") 3 (or_introl eq_refl))).
  reflexivity.
Defined.

(** C10. With [num_pages = 0], a lone surrogate as topic and a UTF-8
    standard output, the fallback generator raises where one slide, the
    introduction, is expected, and so does [generate_outline] on its failure
    path: the print of the topic comes before the introduction is
    appended. *)
Theorem fallback_zero_pages_raises :
  _generate_fallback_content utf8_stdout client_without_key lone_surrogate 0
  = Raise UnicodeEncodeError /\
  generate_outline utf8_stdout ascii_lower loads_numbers plain_repr
                   client_without_key ConnectionFailed lone_surrogate 0
  = Raise UnicodeEncodeError.
Proof. split; reflexivity. Qed.

(** X30. When standard output can encode the topic and [num_pages] is at
    most 1 (zero and negative numbers included), the fallback generator
    returns one slide, the introduction, titled with the topic, and so does
    [generate_outline] whenever its [try] block raises. *)
Theorem fallback_zero_pages
    (encodable : N -> bool) (lower : str -> str)
    (json_loads : str -> res value) (repr : value -> str)
    (self : LLMApi.t) (topic : str) (num_pages : Z) :
  print_ok encodable topic = true ->
  num_pages <= 1 ->
  _generate_fallback_content encodable self topic num_pages
  = Ok [intro_page topic] /\
  getitem (intro_page topic) (u "title") = Ok (VStr (topic ++ u " - 介绍")) /\
  forall (post : reply) (e : exn),
    request_outline encodable lower json_loads repr self post topic num_pages
    = Raise e ->
    generate_outline encodable lower json_loads repr self post topic num_pages
    = Ok [intro_page topic].
Proof.
  intros Hp Hn.
  assert (F : _generate_fallback_content encodable self topic num_pages
              = Ok [intro_page topic]).
  { rewrite fallback_unfold, Hp, range_nil by lia.
    replace (1 <? num_pages) with false
      by (symmetry; apply Z.ltb_ge; lia).
    reflexivity. }
  split; [exact F|]. split; [reflexivity|].
  intros post e H. unfold generate_outline. now rewrite H.
Qed.

Lemma fallback_zero_pages_witness :
  print_ok utf8_stdout (u "Test") = true /\
  0 <= 1 /\
  generate_outline utf8_stdout ascii_lower loads_numbers plain_repr
                   client_without_key ConnectionFailed (u "Test") 0
  = Ok [intro_page (u "Test")].
Proof.
  split; [reflexivity|]. split; [lia|].
  destruct (fallback_zero_pages utf8_stdout ascii_lower loads_numbers
              plain_repr client_without_key (u "Test") 0 eq_refl
              ltac:(lia)) as (_ & _ & H).
  apply (H ConnectionFailed ValueError). reflexivity.
Defined.

(** ** Outline recovery: a parsed list *)

(** C4. On a response that is the JSON text of a one-element list and holds
    a lone surrogate, with [num_pages = 1] and a UTF-8 standard output, the
    parsed list is not returned: the print of the cleaned response, inside
    the [try] block and before [json.loads], raises, and the result is the
    padding slide of the extraction. *)
Theorem parse_outline_loses_list :
  loads_surrogate (clean_response surrogate_json)
  = Ok (VList [VStr lone_surrogate]) /\
  _parse_outline_response utf8_stdout ascii_lower loads_surrogate client
                          (VStr surrogate_json) 1
  = Ok [padding_page 1].
Proof. split; reflexivity. Qed.

(** The same through [generate_outline]: the response is printed up to its
    200th character, the cleaned response cannot be, and the outline
    returned is the padding slide instead of the list the model sent. *)
Example generate_outline_loses_list :
  clean_response fenced_surrogate_json = surrogate_json /\
  print_ok utf8_stdout (slice_to 200 fenced_surrogate_json) = true /\
  generate_outline utf8_stdout ascii_lower loads_surrogate plain_repr client
                   (completion (VStr fenced_surrogate_json)) (u "Test") 1
  = Ok [padding_page 1].
Proof. split; [|split]; vm_compute; reflexivity. Qed.

(** X28. When the first 200 characters of the cleaned response can be
    printed and the cleaned response parses to a JSON list: a list of
    [num_pages] entries is returned as it is; of a longer one the first
    [num_pages] entries are returned; a shorter one is returned followed by
    the [num_pages - len] slides of the fallback generator run on the
    placeholder topic, when that topic can be printed. *)
Theorem parse_outline_json_list
    (encodable : N -> bool) (lower : str -> str)
    (json_loads : str -> res value)
    (self : LLMApi.t) (response : str) (content : list value)
    (num_pages : Z) :
  print_ok encodable (slice_to 200 (clean_response response)) = true ->
  json_loads (clean_response response) = Ok (VList content) ->
  0 <= num_pages ->
  let result :=
    _parse_outline_response encodable lower json_loads self (VStr response)
                            num_pages in
  (len content = num_pages -> result = Ok content) /\
  (num_pages < len content ->
   result = Ok (firstn (Z.to_nat num_pages) content)) /\
  (len content < num_pages ->
   print_ok encodable (u "补充内容") = true ->
   exists padding,
     _generate_fallback_content encodable self (u "补充内容")
                                (num_pages - len content) = Ok padding /\
     result = Ok (content ++ padding) /\
     len padding = num_pages - len content).
Proof.
  intros Hp H Hn result. subst result.
  unfold _parse_outline_response, parse_json. cbn [as_str bind].
  rewrite print_one, Hp. cbn [bind]. rewrite H. cbn [bind].
  repeat split.
  - intros E. apply Z.eqb_eq in E. now rewrite E.
  - intros E.
    destruct (len content =? num_pages) eqn:E1;
      [apply Z.eqb_eq in E1; lia|].
    destruct (len content >? num_pages) eqn:E2.
    + now rewrite slice_to_firstn.
    + pose proof (Zgt_cases (len content) num_pages) as C.
      rewrite E2 in C. lia.
  - intros E Hf.
    destruct (len content =? num_pages) eqn:E1;
      [apply Z.eqb_eq in E1; lia|].
    destruct (len content >? num_pages) eqn:E2;
      [apply Z.gtb_lt in E2; lia|].
    destruct (_generate_fallback_content encodable self (u "补充内容")
                (num_pages - len content)) as [padding|] eqn:F.
    + exists padding. cbn [bind]. repeat split.
      rewrite (fallback_len _ _ _ _ _ F). lia.
    + rewrite fallback_unfold, Hf in F. discriminate.
Qed.

(** Three pages asked, five returned. *)
Lemma parse_outline_json_list_witness :
  print_ok utf8_stdout (slice_to 200 (clean_response (u "[1, 2, 3, 4, 5]")))
  = true /\
  loads_numbers (clean_response (u "[1, 2, 3, 4, 5]"))
  = Ok (VList [VInt 1; VInt 2; VInt 3; VInt 4; VInt 5]) /\
  0 <= 3 /\
  _parse_outline_response utf8_stdout ascii_lower loads_numbers client
                          (VStr (u "[1, 2, 3, 4, 5]")) 3
  = Ok [VInt 1; VInt 2; VInt 3].
Proof.
  assert (H : loads_numbers (clean_response (u "[1, 2, 3, 4, 5]"))
              = Ok (VList [VInt 1; VInt 2; VInt 3; VInt 4; VInt 5]))
    by reflexivity.
  split; [reflexivity|]. split; [exact H|]. split; [lia|].
  destruct (parse_outline_json_list utf8_stdout ascii_lower loads_numbers
              client (u "[1, 2, 3, 4, 5]") _ 3 eq_refl H ltac:(lia))
    as (_ & Hlong & _).
  apply Hlong. reflexivity.
Defined.

(** ** The fallback generator *)

(** C5. On a lone surrogate as topic and a UTF-8 standard output, the
    fallback generator produces no outline, for one page or for three, on
    either of two objects: it prints the topic before it builds the
    introduction, and the print raises. *)
Theorem fallback_raises_on_topic :
  _generate_fallback_content utf8_stdout client lone_surrogate 1
  = Raise UnicodeEncodeError /\
  _generate_fallback_content utf8_stdout client_without_key lone_surrogate 1
  = Raise UnicodeEncodeError /\
  _generate_fallback_content utf8_stdout client lone_surrogate 3
  = Raise UnicodeEncodeError.
Proof. repeat split. Qed.

Lemma nth_error_range (lo hi j : Z) :
  0 <= j < hi - lo -> nth_error (range lo hi) (Z.to_nat j) = Some (lo + j).
Proof.
  intros H. unfold range.
  rewrite nth_error_map.
  rewrite (nth_error_nth' _ O) by (rewrite length_seq; lia).
  rewrite seq_nth by lia. cbn. f_equal. lia.
Qed.

Lemma fallback_part_at (topic : str) (num_pages k : Z) (tail : list value) :
  1 <= k < num_pages - 1 ->
  nth_error (intro_page topic
               :: map (part_page topic) (range 1 (num_pages - 1)) ++ tail)
            (Z.to_nat k)
  = Some (part_page topic k).
Proof.
  intros H.
  replace (Z.to_nat k) with (S (Z.to_nat (k - 1))) by lia.
  cbn [nth_error].
  rewrite nth_error_app1 by (rewrite length_map, range_length; lia).
  rewrite nth_error_map, nth_error_range by lia.
  cbn [option_map]. now replace (1 + (k - 1)) with k by lia.
Qed.

(** The outline of the fallback generator on a topic that can be printed.
    Two invocations for the same [(topic, num_pages)], on whatever objects
    and standard outputs, return the same outline when they return. The
    outline is the topic substituted into fixed templates: it starts with
    the introduction, titled [topic - 介绍], with its 4 points (definition,
    importance, history, agenda) of 2 facts each; for [num_pages = 1] that
    is all; for [num_pages > 1] it has [num_pages] slides and ends with the
    summary, titled [topic - 总结], with its 4 points (recap, key points,
    outlook, actions) of 2 facts each; every slide between the two is a
    part slide titled with its place in the deck, with 4 points of 2
    facts. *)
Theorem fallback_deterministic
    (encodable1 encodable2 : N -> bool) (self1 self2 : LLMApi.t)
    (topic : str) (num_pages : Z) (pages1 pages2 : list value) :
  _generate_fallback_content encodable1 self1 topic num_pages = Ok pages1 ->
  _generate_fallback_content encodable2 self2 topic num_pages = Ok pages2 ->
  pages1 = pages2 /\
  pages1 = intro_page topic :: map (part_page topic) (range 1 (num_pages - 1))
             ++ (if 1 <? num_pages then [summary_page topic] else []) /\
  (exists first rest,
     pages1 = first :: rest /\
     getitem first (u "title") = Ok (VStr (topic ++ u " - 介绍")) /\
     main_points first
     = [VStr (u "什么是" ++ topic); VStr (topic ++ u "的重要性");
        VStr (topic ++ u "的发展历程"); VStr (u "本次演讲的主要内容")] /\
     facts_per_point first = [2; 2; 2; 2] /\
     (num_pages = 1 -> rest = [])) /\
  (1 < num_pages ->
   len pages1 = num_pages /\
   exists before last,
     pages1 = before ++ [last] /\
     getitem last (u "title") = Ok (VStr (topic ++ u " - 总结")) /\
     main_points last
     = [VStr (topic ++ u "主要内容回顾"); VStr (topic ++ u "关键要点总结");
        VStr (topic ++ u "未来展望"); VStr (topic ++ u "行动建议")] /\
     facts_per_point last = [2; 2; 2; 2]) /\
  (forall k, 1 <= k < num_pages - 1 ->
   exists slide,
     nth_error pages1 (Z.to_nat k) = Some slide /\
     getitem slide (u "title")
     = Ok (VStr (topic ++ u " - 第" ++ str_of_int (k + 1) ++ u "部分")) /\
     facts_per_point slide = [2; 2; 2; 2]).
Proof.
  rewrite !fallback_unfold.
  destruct (print_ok encodable1 topic); [|discriminate].
  destruct (print_ok encodable2 topic); [|discriminate].
  intros H1 H2. injection H1 as <-. injection H2 as <-.
  split; [reflexivity|]. split; [reflexivity|]. split; [|split].
  - eexists _, _. split; [reflexivity|].
    split; [reflexivity|]. split; [reflexivity|]. split; [reflexivity|].
    intros ->. reflexivity.
  - intros Hn. split.
    + unfold len. cbn [List.length].
      rewrite length_app, length_map, range_length.
      replace (1 <? num_pages) with true by (symmetry; apply Z.ltb_lt; lia).
      cbn [List.length]. lia.
    + replace (1 <? num_pages) with true by (symmetry; apply Z.ltb_lt; lia).
      exists (intro_page topic
                :: map (part_page topic) (range 1 (num_pages - 1))),
             (summary_page topic).
      split; [reflexivity|]. repeat split.
  - intros k Hk. exists (part_page topic k).
    split; [now apply fallback_part_at|]. split; reflexivity.
Qed.

Lemma fallback_deterministic_witness :
  _generate_fallback_content utf8_stdout client (u "Test") 3
  = Ok [intro_page (u "Test"); part_page (u "Test") 1;
        summary_page (u "Test")] /\
  _generate_fallback_content (fun _ => true) client_without_key (u "Test") 3
  = Ok [intro_page (u "Test"); part_page (u "Test") 1;
        summary_page (u "Test")] /\
  len [intro_page (u "Test"); part_page (u "Test") 1; summary_page (u "Test")]
  = 3.
Proof.
  split; [reflexivity|]. split; [reflexivity|].
  destruct (fallback_deterministic utf8_stdout (fun _ => true) client
              client_without_key (u "Test") 3 _ _ eq_refl eq_refl)
    as (_ & _ & _ & Hmany & _).
  apply Hmany. lia.
Defined.

(** ** Heuristic extraction: indented lines *)

Lemma no_indent_mark (c : N) (r : str) :
  isspace c = false -> startswith_any (c :: r) indent_marks = false.
Proof.
  intros H.
  assert (H32 : (32 =? c)%N = false).
  { destruct (N.eqb_spec 32 c) as [<-|]; [discriminate H | reflexivity]. }
  assert (H9 : (9 =? c)%N = false).
  { destruct (N.eqb_spec 9 c) as [<-|]; [discriminate H | reflexivity]. }
  unfold startswith_any.
  replace indent_marks
    with [[32; 32]; [9]; [32; 32; 45]; [32; 32; 8226]]%N by reflexivity.
  cbn [existsb startswith]. now rewrite H32, H9.
Qed.

(** One line of the pass never adds a fact: its line is stripped before the
    test for indentation. *)
Lemma scan_line_factless (lower : str -> str) (st : scan) (line : str) :
  scan_factless st -> scan_factless (scan_line lower st line).
Proof.
  intros [Hp Hc]. unfold scan_line.
  destruct (strip line) as [|c r] eqn:S; [now split|].
  destruct (existsb _ page_keywords).
  { split; simpl.
    - destruct (current_page st); [|exact Hp].
      apply Forall_app. split; [exact Hp | now constructor].
    - constructor. }
  destruct (is_some (current_page st) && startswith_any (c :: r) summary_marks).
  { split; simpl; [exact Hp|]. now destruct (current_page st). }
  destruct (is_some (current_page st) && startswith_any (c :: r) bullet_marks).
  { destruct (lstrip_chars (c :: r) _); [now split|].
    destruct (current_page st) as [cp|] eqn:P; [|split; [exact Hp | now rewrite P]].
    split; simpl; [exact Hp|].
    apply Forall_app. split; [exact Hc | now repeat constructor]. }
  rewrite (no_indent_mark c r (strip_head _ _ _ S)), andb_false_r.
  now split.
Qed.

Lemma scan_lines_factless (lower : str -> str) (lines : list str) (st : scan) :
  scan_factless st -> scan_factless (fold_left (scan_line lower) lines st).
Proof.
  revert st. induction lines as [|line lines IH]; intros st H; simpl.
  - exact H.
  - apply IH. now apply scan_line_factless.
Qed.

(** Whatever the text, no point found by the pass carries a fact. *)
Lemma scanned_pages_factless (lower : str -> str) (text : str) :
  Forall factless (scanned_pages lower text).
Proof.
  unfold scanned_pages.
  destruct (scan_lines_factless lower (split newline text)
              (mk_scan [] None None)) as [Hp Hc].
  { split; simpl; constructor. }
  destruct (current_page _); [|exact Hp].
  apply Forall_app. split; [exact Hp | now constructor].
Qed.

(** C3. On a page line, a bullet and an indented line, the indented line
    is not kept: the point comes out with no supporting fact, where the
    branch for indented lines would have appended the string [fact]. *)
Theorem extract_drops_indented_fact :
  _extract_content_from_text ascii_lower client (VStr indented_text) 1
  = Ok [page_ (u "page 1") (u "page 1的主要内容概述")
          [point_ (u "point") []]].
Proof. vm_compute. reflexivity. Qed.

(** ** The writer: supporting facts *)

(** The run of a structured fact and that of a bare string. *)
Lemma fact_run_structured (repr : value -> str) (fact explanation : str) :
  fact_run repr (fact_ fact explanation)
  = mk_run ([newline] ++ u "   • " ++ fact ++ u ": " ++ explanation)
           11 (52, 73, 94).
Proof. reflexivity. Qed.

Lemma fact_run_legacy (repr : value -> str) (fact : str) :
  fact_run repr (VStr fact)
  = mk_run ([newline] ++ u "   • " ++ fact) 11 (52, 73, 94).
Proof. reflexivity. Qed.

(** ** The writer: template mode *)

(** A failed templated build has written no file. *)
Lemma build_failure_keeps_files
    (encodable : N -> bool)
    (lower : str -> str) (repr : value -> str) (writable : str -> bool)
    (formatted_content : list value) (template_path output_path : str)
    (fs fs' : files) (e : exn) :
  build_with_template encodable lower repr writable formatted_content
                      template_path output_path fs = (Raise e, fs') ->
  fs' = fs.
Proof.
  unfold build_with_template, sbind, open_presentation, save, lift, ret.
  destruct (lookup_file fs template_path) as [tpl|] eqn:L;
    [|intros H; now injection H].
  cbv beta iota. rewrite L. cbv beta iota.
  match goal with
  | |- context [for_each ?l ?body tpl] =>
    destruct (for_each l body tpl) as [[done|e'] built]
  end.
  - destruct (writable output_path); [discriminate|].
    intros H; now injection H.
  - intros H; now injection H.
Qed.

(** C7. On a template path that names no file and that standard output
    cannot encode (a file name with the byte 128, on a UTF-8 standard
    output), the templated build raises and [write_ppt_with_template]
    surfaces an error, where the blank-deck writer on the same outline,
    output path and style returns the path: the handler prints the
    exception, whose message quotes the path, before it calls that
    writer. *)
Theorem template_failure_surfaces :
  build_with_template utf8_stdout ascii_lower plain_repr always_writable
                      two_slides undecodable_name output_file []
  = (Raise (PackageNotFoundError undecodable_name), []) /\
  write_ppt_with_template utf8_stdout ascii_lower plain_repr stock_deck
                          always_writable two_slides undecodable_name
                          output_file None []
  = (Raise UnicodeEncodeError, []) /\
  fst (write_ppt utf8_stdout plain_repr stock_deck always_writable two_slides
                 output_file None [])
  = Ok output_file.
Proof.
  split; [reflexivity|]. split; [reflexivity|]. vm_compute. reflexivity.
Qed.

(** X29. When the templated build raises an exception whose message can be
    printed, [write_ppt_with_template] is the blank-deck writer run on the
    same outline, output path and style, from the same files: its result,
    value or exception, is that writer's. *)
Theorem template_failure_falls_back
    (encodable : N -> bool)
    (lower : str -> str) (repr : value -> str) (default_presentation : deck)
    (writable : str -> bool) (formatted_content : list value)
    (template_path output_path : str) (style : option str)
    (fs fs' : files) (e : exn) :
  build_with_template encodable lower repr writable formatted_content
                      template_path output_path fs = (Raise e, fs') ->
  forallb (print_ok encodable) (exn_data repr e) = true ->
  write_ppt_with_template encodable lower repr default_presentation writable
                          formatted_content template_path output_path style fs
  = write_ppt encodable repr default_presentation writable formatted_content
              output_path style fs.
Proof.
  intros H Hp.
  pose proof (build_failure_keeps_files _ _ _ _ _ _ _ _ _ _ H) as ->.
  unfold write_ppt_with_template. rewrite H.
  unfold sbind, lift. now rewrite (print_returns _ _ Hp).
Qed.

(** A template that cannot be opened: the deck comes from the blank-deck
    writer. *)
Lemma template_failure_falls_back_witness :
  build_with_template utf8_stdout ascii_lower plain_repr always_writable
                      two_slides template_file output_file []
  = (Raise (PackageNotFoundError template_file), []) /\
  forallb (print_ok utf8_stdout)
          (exn_data plain_repr (PackageNotFoundError template_file)) = true /\
  write_ppt_with_template utf8_stdout ascii_lower plain_repr stock_deck
                          always_writable two_slides template_file
                          output_file None []
  = write_ppt utf8_stdout plain_repr stock_deck always_writable two_slides
              output_file None [].
Proof.
  assert (H : build_with_template utf8_stdout ascii_lower plain_repr
                always_writable two_slides template_file output_file []
              = (Raise (PackageNotFoundError template_file), []))
    by reflexivity.
  split; [exact H|]. split; [reflexivity|].
  exact (template_failure_falls_back utf8_stdout ascii_lower plain_repr
           stock_deck always_writable two_slides template_file output_file
           None [] [] (PackageNotFoundError template_file) H eq_refl).
Defined.

(** ** The writer: layouts *)

Lemma find_none {A} (f : A -> bool) (l : list A) :
  forallb (fun x => negb (f x)) l = true -> find f l = None.
Proof.
  induction l as [|x l IH]; simpl; [reflexivity|].
  destruct (f x); simpl; [discriminate | exact IH].
Qed.

Lemma on_last_snoc {A} (f : A -> A) (l : list A) (x : A) :
  on_last f (l ++ [x]) = l ++ [f x].
Proof.
  unfold on_last. rewrite rev_app_distr. simpl. now rewrite rev_involutive.
Qed.

(** One page of the templated deck, both layouts being found. *)
Lemma template_page_step
    (encodable : N -> bool)
    (repr : value -> str) (tl cl : layout) (ip : Z * value) (d : deck) :
  template_page encodable repr (Some tl) (Some cl) ip d
  = (Ok tt,
     mk_deck (slide_layouts d)
       (slides d
        ++ [mk_slide (if fst ip =? 0 then tl else cl)
              (_fill_slide_content_with_template encodable repr (snd ip)
                 (shapes (new_slide (if fst ip =? 0 then tl else cl))))])).
Proof.
  unfold template_page, sbind, get, lift, pick_layout, add_slide, on_slide,
    modify.
  destruct (fst ip =? 0); cbn [slides slide_layouts];
    now rewrite on_last_snoc.
Qed.

Lemma template_pages_layouts
    (encodable : N -> bool)
    (repr : value -> str) (tl cl : layout) (pages : list (Z * value))
    (d : deck) :
  exists d',
    for_each pages (template_page encodable repr (Some tl) (Some cl)) d
    = (Ok tt, d') /\
    map slide_layout (slides d')
    = map slide_layout (slides d)
        ++ map (fun ip => if fst ip =? 0 then tl else cl) pages.
Proof.
  revert d. induction pages as [|ip pages IH]; intros d.
  - exists d. split; [reflexivity | now rewrite app_nil_r].
  - cbn [for_each]. unfold sbind at 1. rewrite template_page_step.
    destruct (IH (mk_deck (slide_layouts d)
                    (slides d
                     ++ [mk_slide (if fst ip =? 0 then tl else cl)
                           (_fill_slide_content_with_template
                              encodable repr (snd ip)
                              (shapes (new_slide
                                         (if fst ip =? 0 then tl else cl))))])))
      as (d' & Hrun & Hmap).
    exists d'. split; [exact Hrun|].
    rewrite Hmap. cbn [slides]. rewrite map_app, <- app_assoc. reflexivity.
Qed.

Lemma enumerate_later {A} (tl cl : layout) (l : list A) (k : Z) :
  1 <= k ->
  map (fun ip : Z * A => if fst ip =? 0 then tl else cl) (enumerate k l)
  = map (fun _ => cl) l.
Proof.
  revert k. induction l as [|x l IH]; intros k Hk; simpl; [reflexivity|].
  destruct (k =? 0) eqn:E; [apply Z.eqb_eq in E; lia|].
  f_equal. apply IH. lia.
Qed.

(** C8, as the code has it. When the template has layouts, none of them
    content-like (no known content name, fewer than 2 placeholders), the
    content layout is the first layout of the template: the build does not
    raise, and in the saved deck every slide after the first has that
    layout. *)
Theorem content_layout_falls_back_to_first
    (encodable : N -> bool)
    (lower : str -> str) (repr : value -> str) (writable : str -> bool)
    (formatted_content : list value) (template_path output_path : str)
    (fs : files) (template : deck) (first : layout) (rest : list layout) :
  lookup_file fs template_path = Some template ->
  slide_layouts template = first :: rest ->
  forallb (fun ly => negb (content_like lower ly)) (first :: rest) = true ->
  writable output_path = true ->
  _find_best_layout lower (first :: rest) (u "content") = Some first /\
  exists (title_layout : layout) (saved : deck),
    _find_best_layout lower (first :: rest) (u "title") = Some title_layout /\
    build_with_template encodable lower repr writable formatted_content
                        template_path output_path fs
    = (Ok output_path, (output_path, saved) :: fs) /\
    map slide_layout (slides saved)
    = map slide_layout (slides template)
        ++ match formatted_content with
           | [] => []
           | _ :: more => title_layout :: map (fun _ => first) more
           end.
Proof.
  intros Hfile Hlayouts Hnone Hw.
  assert (Hc : _find_best_layout lower (first :: rest) (u "content")
               = Some first).
  { unfold _find_best_layout.
    change (str_eqb (u "content") (u "title")) with false.
    cbv iota zeta. now rewrite (find_none _ _ Hnone). }
  assert (Ht : exists title_layout,
             _find_best_layout lower (first :: rest) (u "title")
             = Some title_layout).
  { unfold _find_best_layout.
    change (str_eqb (u "title") (u "title")) with true. cbv iota zeta.
    destruct (find (title_like lower) (first :: rest)); eauto. }
  destruct Ht as [title_layout Ht].
  split; [exact Hc|]. exists title_layout.
  destruct (template_pages_layouts encodable repr title_layout first
              (enumerate 0 formatted_content) template)
    as (saved & Hrun & Hmap).
  exists saved. split; [exact Ht|]. split.
  - unfold build_with_template, sbind, open_presentation.
    rewrite Hfile. cbv beta iota. rewrite Hfile. cbv beta iota.
    rewrite Hlayouts, Ht, Hc, Hrun. unfold save, ret. now rewrite Hw.
  - rewrite Hmap. f_equal.
    destruct formatted_content as [|page more]; [reflexivity|].
    cbn [enumerate map fst]. change (0 =? 0) with true. cbv iota.
    f_equal. apply enumerate_later. lia.
Qed.

Lemma content_layout_falls_back_to_first_witness :
  lookup_file small_template_on_disk template_file = Some small_template /\
  forallb (fun ly => negb (content_like ascii_lower ly))
          [bare_layout; title_only_layout] = true /\
  always_writable output_file = true /\
  _find_best_layout ascii_lower [bare_layout; title_only_layout] (u "content")
  = Some bare_layout.
Proof.
  split; [reflexivity|]. split; [reflexivity|]. split; [reflexivity|].
  exact (proj1 (content_layout_falls_back_to_first
                  utf8_stdout ascii_lower plain_repr always_writable two_slides
                  template_file output_file small_template_on_disk
                  small_template bare_layout [title_only_layout]
                  eq_refl eq_refl eq_refl eq_refl)).
Defined.

(** C8, as stated, fails: in a template whose two layouts are not
    content-like, the second slide gets the layout at index 0, which is not
    the layout at index 1. *)
Lemma content_layout_is_not_layout_1 :
  forallb (fun ly => negb (content_like ascii_lower ly))
          (slide_layouts small_template) = true /\
  pick_layout
    (_find_best_layout ascii_lower (slide_layouts small_template) (u "title"))
    (_find_best_layout ascii_lower (slide_layouts small_template) (u "content"))
    1 small_template = Ok bare_layout /\
  index (slide_layouts small_template) 1 = Ok title_only_layout /\
  bare_layout <> title_only_layout /\
  layouts_used output_file
    (snd (write_ppt_with_template utf8_stdout ascii_lower plain_repr stock_deck
            always_writable two_slides template_file output_file None
            small_template_on_disk))
  = [u "Title Only"; u "Blank"].
Proof.
  split; [reflexivity|]. split; [reflexivity|]. split; [reflexivity|].
  split; [discriminate|]. vm_compute. reflexivity.
Qed.

(** The layout at index 1 is asked for only when the template has no layout
    at all, and asking raises: the deck then comes from the blank-deck
    writer. *)
Lemma no_layout_raises (new_prs : deck) (i : Z) :
  slide_layouts new_prs = [] ->
  pick_layout None None i new_prs = Raise IndexError.
Proof.
  intros H. unfold pick_layout. rewrite H. now destruct (i =? 0).
Qed.

(** ** The writer: style *)

Lemma default_layouts_table :
  default_layouts_get (Some (u "默认")) 1 = 1 /\
  default_layouts_get (Some (u "简约")) 1 = 6 /\
  default_layouts_get (Some (u "商务")) 1 = 1 /\
  default_layouts_get None 1 = 1.
Proof. repeat split. Qed.

Lemma default_layouts_unknown (style : str) :
  table_get default_layouts style = None ->
  default_layouts_get (Some style) 1 = 1.
Proof. intros H. unfold default_layouts_get. now rewrite H. Qed.

(** The index looked up from [style] is not used: the writer does the same
    with every style. *)
Lemma write_ppt_style_irrelevant
    (encodable : N -> bool) (repr : value -> str) (default_presentation : deck)
    (writable : str -> bool) (formatted_content : list value)
    (output_path : str) (style1 style2 : option str) (fs : files) :
  write_ppt encodable repr default_presentation writable formatted_content
            output_path style1 fs
  = write_ppt encodable repr default_presentation writable formatted_content
              output_path style2 fs.
Proof. reflexivity. Qed.

Lemma write_page_layout
    (encodable : N -> bool)
    (repr : value -> str) (ly1 : layout) (page : value) (d d' : deck) :
  index (slide_layouts d) 1 = Ok ly1 ->
  write_page encodable repr page d = (Ok tt, d') ->
  slide_layouts d' = slide_layouts d /\
  map slide_layout (slides d') = map slide_layout (slides d) ++ [ly1].
Proof.
  intros Hly.
  unfold write_page, sbind, get, lift, add_slide, on_slide, modify.
  rewrite Hly. cbn [slides slide_layouts]. rewrite on_last_snoc.
  destruct (getitem page (u "title")) as [title|]; [|discriminate].
  intros H. injection H as <-. cbn [slides slide_layouts].
  rewrite on_last_snoc, map_app. now split.
Qed.

Lemma write_pages_layouts
    (encodable : N -> bool)
    (repr : value -> str) (ly1 : layout) (pages : list value) (d d' : deck) :
  index (slide_layouts d) 1 = Ok ly1 ->
  for_each pages (write_page encodable repr) d = (Ok tt, d') ->
  map slide_layout (slides d')
  = map slide_layout (slides d) ++ map (fun _ => ly1) pages.
Proof.
  revert d. induction pages as [|page pages IH]; intros d Hly.
  - intros H. injection H as <-. now rewrite app_nil_r.
  - cbn [for_each]. unfold sbind at 1.
    destruct (write_page encodable repr page d) as [[[]|e] d1] eqn:E;
      [|discriminate].
    destruct (write_page_layout encodable repr ly1 page d d1 Hly E) as [Hl Hm].
    intros H. rewrite (IH d1); [|now rewrite Hl | exact H].
    rewrite Hm, <- app_assoc. reflexivity.
Qed.

(** Every slide of a deck saved by [write_ppt] has the layout at index 1 of
    the blank deck, whatever the style. *)
Lemma write_ppt_layouts
    (encodable : N -> bool) (repr : value -> str) (default_presentation : deck)
    (writable : str -> bool) (formatted_content : list value)
    (output_path : str) (style : option str) (fs fs' : files)
    (ly1 : layout) (r : str) :
  index (slide_layouts default_presentation) 1 = Ok ly1 ->
  write_ppt encodable repr default_presentation writable formatted_content
            output_path style fs = (Ok r, fs') ->
  exists saved,
    fs' = (output_path, saved) :: fs /\
    map slide_layout (slides saved)
    = map slide_layout (slides default_presentation)
        ++ map (fun _ => ly1) formatted_content.
Proof.
  intros Hly. unfold write_ppt. cbv zeta.
  destruct (for_each formatted_content (write_page encodable repr)
                     default_presentation)
    as [[[]|e] saved] eqn:E; [|discriminate].
  unfold sbind, save, ret, lift.
  destruct (writable output_path); [|discriminate].
  intros H. injection H as _ <-. exists saved. split; [reflexivity|].
  now apply (write_pages_layouts encodable repr ly1 formatted_content
               default_presentation saved).
Qed.

(** C9. With the style whose table entry is 6, the slide of the saved
    deck has the layout at index 1 of the blank deck, not the one at
    index 6. *)
Theorem write_ppt_minimal_style_uses_layout_1 :
  default_layouts_get (Some (u "简约")) 1 = 6 /\
  index (map name (slide_layouts stock_deck)) 1 = Ok (u "Title and Content") /\
  index (map name (slide_layouts stock_deck)) 6 = Ok (u "Blank") /\
  layouts_used output_file
    (snd (write_ppt utf8_stdout plain_repr stock_deck always_writable one_slide
            output_file (Some (u "简约")) []))
  = [u "Title and Content"].
Proof.
  split; [reflexivity|]. split; [reflexivity|]. split; [reflexivity|].
  vm_compute. reflexivity.
Qed.

(** ** Sanity checks of the string model *)

Example u_ascii : u "page" = [112; 97; 103; 101]%N.
Proof. reflexivity. Qed.

Example u_cjk : u "第页•" = [31532; 39029; 8226]%N.
Proof. reflexivity. Qed.

Example str_of_int_12 : str_of_int 12 = u "12".
Proof. reflexivity. Qed.

Example split_lines :
  split newline (u "a" ++ [newline] ++ u "b") = [u "a"; u "b"].
Proof. reflexivity. Qed.

(** The same loss through [generate_outline], the content being no JSON. *)
Example generate_outline_indented :
  generate_outline utf8_stdout ascii_lower loads_numbers plain_repr client
                   (completion (VStr indented_text)) (u "Test") 1
  = Ok [page_ (u "page 1") (u "page 1的主要内容概述")
          [point_ (u "point") []]].
Proof. vm_compute. reflexivity. Qed.

Example strip_indented : strip (u "  fact ") = u "fact".
Proof. reflexivity. Qed.

Example clean_fenced : clean_response (u "```json [1] ```  ") = u "[1]".
Proof. reflexivity. Qed.

(** * Further properties of the code *)

(** ** Heuristic extraction: what the pass finds *)

Lemma scan_line_titles (lower : str -> str) (st : scan) (line : str) :
  map title (all_pages (scan_line lower st line))
  = map title (all_pages st)
      ++ (if is_page_line lower line then [strip line] else []).
Proof.
  unfold scan_line, is_page_line.
  destruct (strip line) as [|c r] eqn:S; [now rewrite app_nil_r|].
  destruct (existsb _ page_keywords).
  { unfold all_pages. cbn [pages current_page].
    destruct (current_page st); rewrite !map_app; cbn [map title];
      now rewrite ?app_nil_r. }
  rewrite app_nil_r.
  destruct (is_some (current_page st) && startswith_any (c :: r) summary_marks).
  { unfold all_pages. cbn [pages current_page].
    destruct (current_page st); [|reflexivity].
    cbn [option_map]. now rewrite !map_app. }
  destruct (is_some (current_page st) && startswith_any (c :: r) bullet_marks).
  { destruct (lstrip_chars (c :: r) _); [reflexivity|].
    destruct (current_page st) as [cp|] eqn:P; [|reflexivity].
    unfold all_pages. cbn [pages current_page]. rewrite P.
    now rewrite !map_app. }
  rewrite (no_indent_mark c r (strip_head _ _ _ S)), andb_false_r.
  reflexivity.
Qed.

Lemma scan_lines_titles (lower : str -> str) (lines : list str) (st : scan) :
  map title (all_pages (fold_left (scan_line lower) lines st))
  = map title (all_pages st)
      ++ map strip (filter (is_page_line lower) lines).
Proof.
  revert st. induction lines as [|line lines IH]; intros st; cbn [fold_left].
  - cbn. now rewrite app_nil_r.
  - rewrite IH, scan_line_titles. cbn [filter].
    destruct (is_page_line lower line); cbn [map].
    + now rewrite <- app_assoc.
    + now rewrite app_nil_r.
Qed.

Lemma scanned_pages_all (lower : str -> str) (text : str) :
  scanned_pages lower text
  = all_pages (fold_left (scan_line lower) (split newline text)
                         (mk_scan [] None None)).
Proof.
  unfold scanned_pages, all_pages.
  destruct (current_page _); [reflexivity | now rewrite app_nil_r].
Qed.

(** X1. Every line with a page keyword starts exactly one slide: the titles of
    the slides found are these lines, stripped, in their order. *)
Theorem scanned_titles (lower : str -> str) (text : str) :
  map title (scanned_pages lower text)
  = map strip (filter (is_page_line lower) (split newline text)).
Proof. rewrite scanned_pages_all. now rewrite scan_lines_titles. Qed.

(** The [while] loop appends the padding slides numbered from
    [len(pages) + 1] to [num_pages]. *)
Lemma pad_pages_shape (fuel : nat) (pages : list value) (num_pages : Z) :
  num_pages - len pages <= Z.of_nat fuel ->
  pad_pages fuel pages num_pages
  = pages ++ map padding_page (range (len pages + 1) (num_pages + 1)).
Proof.
  revert pages. induction fuel as [|fuel IH]; intros pages Hf; cbn [pad_pages].
  - rewrite range_nil by lia. now rewrite app_nil_r.
  - destruct (len pages <? num_pages) eqn:E.
    + apply Z.ltb_lt in E. rewrite IH by (rewrite len_app; cbn; lia).
      rewrite (range_cons (len pages + 1)) by lia.
      rewrite len_app, <- app_assoc. reflexivity.
    + apply Z.ltb_ge in E. rewrite range_nil by lia. now rewrite app_nil_r.
Qed.

Lemma extract_found_then_padding
    (lower : str -> str) (self : LLMApi.t) (text : str) (num_pages : Z) :
  0 <= num_pages ->
  let found := map page_value (scanned_pages lower text) in
  _extract_content_from_text lower self (VStr text) num_pages
  = Ok (firstn (Z.to_nat num_pages) found
          ++ map padding_page (range (len found + 1) (num_pages + 1))).
Proof.
  intros Hn found. unfold _extract_content_from_text. cbn [as_str bind].
  fold found. pose proof (len_nonneg found) as Hf.
  rewrite pad_pages_shape by lia.
  destruct (num_pages <? len found) eqn:E.
  - apply Z.ltb_lt in E. rewrite range_nil by lia. rewrite !app_nil_r.
    replace (len found >? num_pages) with true
      by (symmetry; apply Z.gtb_lt; lia).
    now rewrite slice_to_firstn.
  - apply Z.ltb_ge in E. rewrite (firstn_all2 found) by (unfold len in E; lia).
    set (padded := found ++ _).
    assert (Hp : len padded = num_pages).
    { unfold padded. rewrite len_app. unfold len at 2.
      rewrite length_map, range_length. lia. }
    pose proof (Zgt_cases (len padded) num_pages) as C.
    destruct (len padded >? num_pages); [lia | reflexivity].
Qed.

(** X2. The result of the extraction: the slides found, at most [num_pages] of
    them, then the padding slides numbered from the count found plus one up
    to [num_pages]. *)
Theorem extract_shape
    (lower : str -> str) (self : LLMApi.t) (text : str) (num_pages : Z) :
  0 <= num_pages ->
  _extract_content_from_text lower self (VStr text) num_pages
  = Ok (firstn (Z.to_nat num_pages) (map page_value (scanned_pages lower text))
          ++ map padding_page
               (range (len (scanned_pages lower text) + 1) (num_pages + 1))).
Proof.
  intros Hn. rewrite extract_found_then_padding by assumption.
  unfold len. now rewrite length_map.
Qed.

Lemma extract_shape_witness :
  0 <= 2 /\
  _extract_content_from_text ascii_lower client (VStr indented_text) 2
  = Ok [page_ (u "page 1") (u "page 1的主要内容概述") [point_ (u "point") []];
        padding_page 2].
Proof.
  split; [lia|]. rewrite extract_shape by lia. reflexivity.
Defined.

(** X3. A text without any page keyword gives padding only: slides numbered 1 to
    [num_pages], whatever bullets and summaries it has. *)
Theorem extract_without_markers
    (lower : str -> str) (self : LLMApi.t) (text : str) (num_pages : Z) :
  0 <= num_pages ->
  filter (is_page_line lower) (split newline text) = [] ->
  _extract_content_from_text lower self (VStr text) num_pages
  = Ok (map padding_page (range 1 (num_pages + 1))).
Proof.
  intros Hn Hno.
  assert (Hfound : scanned_pages lower text = []).
  { apply (map_eq_nil title). rewrite scanned_pages_all, scan_lines_titles.
    now rewrite Hno. }
  rewrite extract_found_then_padding by assumption. cbv zeta.
  rewrite Hfound. cbn [map]. now rewrite firstn_nil.
Qed.

Lemma extract_without_markers_witness :
  0 <= 2 /\
  filter (is_page_line ascii_lower)
         (split newline (u "- point" ++ [newline] ++ u "summary: x")) = [] /\
  _extract_content_from_text ascii_lower client
    (VStr (u "- point" ++ [newline] ++ u "summary: x")) 2
  = Ok [padding_page 1; padding_page 2].
Proof.
  split; [lia|]. split; [reflexivity|].
  rewrite extract_without_markers by (lia || reflexivity). reflexivity.
Defined.

Lemma scan_line_trimmed (lower : str -> str) (st : scan) (line : str) :
  Forall (fun p => Forall trimmed_point (points p)) (all_pages st) ->
  Forall (fun p => Forall trimmed_point (points p))
         (all_pages (scan_line lower st line)).
Proof.
  intros H. unfold scan_line.
  destruct (strip line) as [|c r] eqn:S; [exact H|].
  destruct (existsb _ page_keywords).
  { unfold all_pages in *. cbn [pages current_page].
    apply Forall_app. split; [|now repeat constructor].
    destruct (current_page st); [exact H|].
    now rewrite app_nil_r in H. }
  destruct (is_some (current_page st) && startswith_any (c :: r) summary_marks).
  { unfold all_pages in *. cbn [pages current_page].
    destruct (current_page st); [|exact H].
    apply Forall_app in H. destruct H as [Hp Hc]. apply Forall_app.
    split; [exact Hp|]. constructor; [|constructor].
    now inversion Hc. }
  destruct (is_some (current_page st) && startswith_any (c :: r) bullet_marks).
  { destruct (lstrip_chars (c :: r) _) as [|c' r'] eqn:L; [exact H|].
    destruct (current_page st) as [cp|] eqn:P; [|exact H].
    unfold all_pages in *. cbn [pages current_page]. rewrite P in H.
    apply Forall_app in H. destruct H as [Hp Hc]. apply Forall_app.
    split; [exact Hp|]. constructor; [|constructor]. cbn [points].
    apply Forall_app. split; [now inversion Hc|].
    constructor; [|constructor]. exists c', r'. split; [reflexivity|].
    unfold lstrip_chars in L. now apply dropwhile_head in L. }
  rewrite (no_indent_mark c r (strip_head _ _ _ S)), andb_false_r.
  exact H.
Qed.

(** X4. Every point found has a text that is not empty and does not start
    with a bullet, a digit from 1 to 9, a dot or a space. *)
Theorem scanned_points_trimmed (lower : str -> str) (text : str) :
  Forall (fun p => Forall trimmed_point (points p))
         (scanned_pages lower text).
Proof.
  rewrite scanned_pages_all.
  generalize (split newline text).
  assert (H0 : Forall (fun p => Forall trimmed_point (points p))
                      (all_pages (mk_scan [] None None))) by constructor.
  revert H0. generalize (mk_scan [] None None).
  intros st H0 lines. revert st H0.
  induction lines as [|line lines IH]; intros st H0; cbn [fold_left].
  - exact H0.
  - apply IH. now apply scan_line_trimmed.
Qed.

(** ** The fallback outline: every slide *)

(** X6. In the fallback outline the slide at position [k] (counting from
    0), between the introduction and the summary, is a part slide whose
    title, summary and four main points all say part [k + 1]: the number of
    a part is its place in the deck. *)
Theorem fallback_part_position
    (encodable : N -> bool) (self : LLMApi.t) (topic : str)
    (num_pages k : Z) (pages : list value) :
  1 <= k < num_pages - 1 ->
  _generate_fallback_content encodable self topic num_pages = Ok pages ->
  exists slide,
    nth_error pages (Z.to_nat k) = Some slide /\
    getitem slide (u "title")
    = Ok (VStr (topic ++ u " - 第" ++ str_of_int (k + 1) ++ u "部分")) /\
    getitem slide (u "summary")
    = Ok (VStr (u "在了解了" ++ topic
                  ++ u "的基础知识后，现在让我们深入探讨它的第"
                  ++ str_of_int (k + 1)
                  ++ u "个重要方面，这里有许多令人惊喜的发现。")) /\
    main_points slide
    = [VStr (topic ++ u "的第" ++ str_of_int (k + 1) ++ u "个核心要点");
       VStr (topic ++ u "的第" ++ str_of_int (k + 1) ++ u "个关键因素");
       VStr (topic ++ u "的第" ++ str_of_int (k + 1) ++ u "个发展趋势");
       VStr (topic ++ u "的第" ++ str_of_int (k + 1) ++ u "个应用案例")].
Proof.
  intros H. rewrite fallback_unfold.
  destruct (print_ok encodable topic); [|discriminate].
  intros G. injection G as <-. exists (part_page topic k).
  split; [now apply fallback_part_at | repeat split].
Qed.

Lemma fallback_part_position_witness :
  1 <= 2 < 5 - 1 /\
  exists slide,
    nth_error [intro_page (u "Test"); part_page (u "Test") 1;
               part_page (u "Test") 2; part_page (u "Test") 3;
               summary_page (u "Test")] 2 = Some slide /\
    getitem slide (u "title") = Ok (VStr (u "Test - 第3部分")).
Proof.
  split; [lia|].
  destruct (fallback_part_position utf8_stdout client (u "Test") 5 2 _
              ltac:(lia) eq_refl) as (slide & Hn & Ht & _).
  exists slide. split; [exact Hn | exact Ht].
Defined.

(** X7. The fallback generator returns whenever standard output can encode
    the topic, and every slide of the outline it returns, for any
    [num_pages], has 4 points with 2 facts each. *)
Theorem fallback_slides_shape
    (encodable : N -> bool) (self : LLMApi.t) (topic : str) (num_pages : Z) :
  (print_ok encodable topic = true ->
   exists pages,
     _generate_fallback_content encodable self topic num_pages = Ok pages) /\
  forall pages,
    _generate_fallback_content encodable self topic num_pages = Ok pages ->
    Forall (fun slide => facts_per_point slide = [2; 2; 2; 2]) pages.
Proof.
  rewrite fallback_unfold. split.
  - intros ->. eauto.
  - intros pages. destruct (print_ok encodable topic); [|discriminate].
    intros H. injection H as <-. constructor; [reflexivity|].
    apply Forall_app. split.
    + apply Forall_map, Forall_forall. intros i _. reflexivity.
    + destruct (1 <? num_pages); now repeat constructor.
Qed.

Lemma fallback_slides_shape_witness :
  print_ok utf8_stdout (u "Test") = true /\
  Forall (fun slide => facts_per_point slide = [2; 2; 2; 2])
         [intro_page (u "Test"); summary_page (u "Test")].
Proof.
  split; [reflexivity|].
  apply (proj2 (fallback_slides_shape utf8_stdout client (u "Test") 2)).
  reflexivity.
Defined.

(** ** The call to the model *)

(** X8. [_call_llm] returns a value exactly when the key is set, the status is
    200, the body decodes to a dict, and [choices] is a list whose first
    element is a dict with a dict [message] that has a [content]; the value
    is that content. *)
Theorem call_llm_returns (self : LLMApi.t) (post : reply) (content : value) :
  _call_llm self post = Ok content <->
  api_key_unset self = false /\
  exists text body rest choice message,
    post = Response 200 text (Ok (VDict body)) /\
    dict_get body (u "choices") = Some (VList (VDict choice :: rest)) /\
    dict_get choice (u "message") = Some (VDict message) /\
    dict_get message (u "content") = Some content.
Proof.
  unfold _call_llm. split.
  - destruct (api_key_unset self); [discriminate|].
    destruct post as [|status_code text json]; [discriminate|].
    destruct (status_code =? 200) eqn:E; cbn [negb]; [|discriminate].
    apply Z.eqb_eq in E. subst status_code.
    destruct json as [result|]; cbn [bind]; [|discriminate].
    destruct result as [| | | | |l|body]; cbn [getitem bind];
      try discriminate.
    destruct (dict_get body (u "choices")) as [choices|] eqn:C;
      cbn [bind]; [|discriminate].
    destruct choices as [| | | |[|c0 s0]|[|first rest]|d0];
      cbn [getitem0 bind getitem]; try discriminate.
    destruct first as [| | | | | |choice]; cbn [getitem bind];
      try discriminate.
    destruct (dict_get choice (u "message")) as [message|] eqn:M;
      cbn [bind]; [|discriminate].
    destruct message as [| | | | | |message]; cbn [getitem];
      try discriminate.
    destruct (dict_get message (u "content")) as [c|] eqn:K; [|discriminate].
    intros H. injection H as ->. split; [reflexivity|].
    now exists text, body, rest, choice, message.
  - intros (K & text & body & rest & choice & message & -> & C & M & Hc).
    rewrite K. change (200 =? 200) with true. cbn [negb bind getitem].
    rewrite C. cbn [bind getitem0 getitem]. rewrite M. cbn [bind getitem].
    now rewrite Hc.
Qed.

(** X9. A content that is not a string (null, a number, a list, a dict) ends in
    the fallback outline; a list gets past the preview slice and fails in the
    parsing and again in the extraction. *)
Theorem non_string_content_falls_back
    (encodable : N -> bool) (lower : str -> str)
    (json_loads : str -> res value) (repr : value -> str)
    (self : LLMApi.t) (post : reply) (topic : str) (num_pages : Z)
    (content : value) :
  _call_llm self post = Ok content ->
  (forall s, content <> VStr s) ->
  generate_outline encodable lower json_loads repr self post topic num_pages
  = _generate_fallback_content encodable self topic num_pages.
Proof.
  intros H Hs. unfold generate_outline, request_outline.
  destruct (print encodable [topic]); cbn [bind]; [|reflexivity].
  rewrite H. cbn [bind].
  destruct content; try reflexivity.
  - now destruct (Hs s).
  - cbn [preview bind].
    destruct (print encodable _); reflexivity.
Qed.

Lemma non_string_content_falls_back_witness :
  _call_llm client (completion (VList [VInt 1])) = Ok (VList [VInt 1]) /\
  generate_outline utf8_stdout ascii_lower loads_numbers plain_repr client
                   (completion (VList [VInt 1])) (u "Test") 2
  = Ok two_slides.
Proof.
  split; [reflexivity|].
  apply (non_string_content_falls_back utf8_stdout ascii_lower loads_numbers
           plain_repr client
           (completion (VList [VInt 1])) (u "Test") 2 (VList [VInt 1]));
    [reflexivity | discriminate].
Defined.

(** X10. [test_connection] answers [True] only when the key is set, the status
    is 200 and the call returned a content in which the expected phrase is
    found; every failure gives [False]. *)
Theorem test_connection_true (self : LLMApi.t) (post : reply) :
  test_connection self post = true ->
  api_key_unset self = false /\
  (exists text json, post = Response 200 text json) /\
  exists content,
    _call_llm self post = Ok content /\
    py_in (u "连接测试成功") content = Ok true.
Proof.
  unfold test_connection.
  destruct (_call_llm self post) as [content|e] eqn:C; cbn [bind];
    [|discriminate].
  destruct (py_in (u "连接测试成功") content) as [found|] eqn:F;
    [|discriminate].
  intros ->. unfold _call_llm in C.
  destruct (api_key_unset self); [discriminate|].
  destruct post as [|status_code text json]; [discriminate|].
  destruct (status_code =? 200) eqn:E; cbn [negb] in C; [|discriminate].
  apply Z.eqb_eq in E. subst status_code.
  split; [reflexivity|]. split; [now exists text, json|].
  now exists content.
Qed.

Lemma test_connection_true_witness :
  test_connection client (completion (VStr (u "连接测试成功"))) = true /\
  api_key_unset client = false.
Proof.
  split; [reflexivity|].
  exact (proj1 (test_connection_true client
                  (completion (VStr (u "连接测试成功"))) eq_refl)).
Defined.

(** ** Configuration of the object *)

(** X11. The [Authorization] header is the one derived from the key after
    [__init__], and stays so through [set_config] unless the new key is the
    empty string. *)
Theorem set_config_keeps_header
    (key0 url0 model0 : option str)
    (self : llm_object) (api_key base_url model : option str) :
  header_consistent (__init__ key0 url0 model0) /\
  (header_consistent self -> api_key <> Some [] ->
   header_consistent (set_config self api_key base_url model)).
Proof.
  split.
  - unfold header_consistent, __init__. cbn. reflexivity.
  - unfold header_consistent, set_config. intros H Hk.
    destruct api_key as [[|c k]|]; [now destruct Hk | |];
      destruct base_url, model; cbn; try reflexivity; exact H.
Qed.

Lemma set_config_keeps_header_witness :
  header_consistent (__init__ None None None) /\
  Some (u "sk-test") <> Some [] /\
  header_consistent
    (set_config (__init__ None None None) (Some (u "sk-test")) None None).
Proof.
  destruct (set_config_keeps_header None None None (__init__ None None None)
              (Some (u "sk-test")) None None) as [H0 H1].
  split; [exact H0|]. split; [discriminate|].
  apply H1; [exact H0 | discriminate].
Defined.

(** X12. Two calls of [set_config] are one call with, for each argument, the
    later value when it is given and the earlier one otherwise. *)
Theorem set_config_twice
    (self : llm_object) (k1 b1 m1 k2 b2 m2 : option str) :
  set_config (set_config self k1 b1 m1) k2 b2 m2
  = set_config self (or_else k2 k1) (or_else b2 b1) (or_else m2 m1).
Proof.
  destruct self as [[key url mdl] auth].
  destruct k1, b1, m1, k2, b2, m2; reflexivity.
Qed.

Lemma call_llm_returns_witness :
  api_key_unset client = false /\
  _call_llm client (completion (VStr (u "[1, 2]"))) = Ok (VStr (u "[1, 2]")).
Proof.
  split; [reflexivity|].
  apply (proj2 (call_llm_returns client (completion (VStr (u "[1, 2]")))
                  (VStr (u "[1, 2]")))).
  split; [reflexivity|].
  exists [], [(u "choices",
               VList [VDict [(u "message",
                              VDict [(u "content", VStr (u "[1, 2]"))])]])],
         [], [(u "message", VDict [(u "content", VStr (u "[1, 2]"))])],
         [(u "content", VStr (u "[1, 2]"))].
  repeat split.
Defined.

(** ** The writer: blank-deck mode *)

Lemma str_eqb_refl (a : str) : str_eqb a a = true.
Proof. unfold str_eqb. now destruct (list_eq_dec N.eq_dec a a). Qed.

Lemma write_page_raises
    (encodable : N -> bool)
    (repr : value -> str) (page : value) (d : deck) (e : exn) :
  getitem page (u "title") = Raise e ->
  exists e' d', write_page encodable repr page d = (Raise e', d').
Proof.
  intros H. unfold write_page, sbind, get, lift, add_slide, on_slide, modify.
  destruct (index (slide_layouts d) 1); [|eauto].
  rewrite H. eauto.
Qed.

Lemma write_pages_raise
    (encodable : N -> bool)
    (repr : value -> str) (pages : list value) (page : value) (e : exn)
    (d : deck) :
  In page pages -> getitem page (u "title") = Raise e ->
  exists e' d', for_each pages (write_page encodable repr) d = (Raise e', d').
Proof.
  intros Hin H. revert d.
  induction pages as [|p pages IH]; intros d; [destruct Hin|].
  cbn [for_each]. unfold sbind at 1.
  destruct (write_page encodable repr p d) as [[[]|e1] d1] eqn:E; [|eauto].
  destruct Hin as [-> | Hin].
  - destruct (write_page_raises encodable repr page d e H) as (e' & d' & R).
    rewrite R in E. discriminate.
  - now apply IH.
Qed.

(** X13. In blank-deck mode one slide without a [title] key (or that is no dict)
    makes [write_ppt] raise, and no file is written. *)
Theorem write_ppt_missing_title
    (encodable : N -> bool) (repr : value -> str) (default_presentation : deck)
    (writable : str -> bool) (formatted_content : list value)
    (output_path : str) (style : option str) (fs : files)
    (page : value) (e : exn) :
  In page formatted_content ->
  getitem page (u "title") = Raise e ->
  exists e',
    write_ppt encodable repr default_presentation writable formatted_content
              output_path style fs = (Raise e', fs).
Proof.
  intros Hin H. unfold write_ppt. cbv zeta.
  destruct (write_pages_raise encodable repr formatted_content page e
              default_presentation Hin H) as (e' & d' & R).
  rewrite R. now exists e'.
Qed.

Lemma write_ppt_missing_title_witness :
  In (VDict [(u "summary", VStr (u "s"))])
     [VDict [(u "summary", VStr (u "s"))]] /\
  getitem (VDict [(u "summary", VStr (u "s"))]) (u "title") = Raise KeyError /\
  exists e',
    write_ppt utf8_stdout plain_repr stock_deck always_writable
              [VDict [(u "summary", VStr (u "s"))]] output_file None []
    = (Raise e', []).
Proof.
  split; [now left|]. split; [reflexivity|].
  apply (write_ppt_missing_title utf8_stdout plain_repr stock_deck
           always_writable
           [VDict [(u "summary", VStr (u "s"))]] output_file None []
           (VDict [(u "summary", VStr (u "s"))]) KeyError);
    [now left | reflexivity].
Defined.

Lemma write_pages_return
    (encodable : N -> bool)
    (repr : value -> str) (ly1 : layout) (pages : list value) (d : deck) :
  index (slide_layouts d) 1 = Ok ly1 ->
  (forall page, In page pages ->
                exists title, getitem page (u "title") = Ok title) ->
  exists d', for_each pages (write_page encodable repr) d = (Ok tt, d').
Proof.
  revert d. induction pages as [|p pages IH]; intros d Hly Ht.
  - now exists d.
  - cbn [for_each]. unfold sbind at 1.
    destruct (Ht p (or_introl eq_refl)) as [title Hp].
    assert (E : exists d1, write_page encodable repr p d = (Ok tt, d1)).
    { unfold write_page, sbind, get, lift, add_slide, on_slide, modify.
      rewrite Hly, Hp. eauto. }
    destruct E as [d1 E]. rewrite E.
    apply IH.
    + destruct (write_page_layout encodable repr ly1 p d d1 Hly E) as [Hl _].
      now rewrite Hl.
    + intros page Hin. apply Ht. now right.
Qed.

(** X14. In blank-deck mode, when every slide has a [title] key, the blank deck
    has a layout at index 1 and the path can be written, [write_ppt] returns
    the output path and the file at that path holds the blank deck's slides
    followed by one slide per outline entry, each on that layout; the other
    files are as before. *)
Theorem write_ppt_saves
    (encodable : N -> bool) (repr : value -> str) (default_presentation : deck)
    (writable : str -> bool) (formatted_content : list value)
    (output_path : str) (style : option str) (fs : files) (ly1 : layout) :
  index (slide_layouts default_presentation) 1 = Ok ly1 ->
  (forall page, In page formatted_content ->
                exists title, getitem page (u "title") = Ok title) ->
  writable output_path = true ->
  exists saved,
    write_ppt encodable repr default_presentation writable formatted_content
              output_path style fs
    = (Ok output_path, (output_path, saved) :: fs) /\
    lookup_file ((output_path, saved) :: fs) output_path = Some saved /\
    map slide_layout (slides saved)
    = map slide_layout (slides default_presentation)
        ++ map (fun _ => ly1) formatted_content.
Proof.
  intros Hly Ht Hw.
  destruct (write_pages_return encodable repr ly1 formatted_content
              default_presentation Hly Ht) as [saved R].
  exists saved. split; [|split].
  - unfold write_ppt. cbv zeta. rewrite R.
    unfold sbind, save, ret. now rewrite Hw.
  - cbn [lookup_file]. now rewrite str_eqb_refl.
  - now apply (write_pages_layouts encodable repr ly1 formatted_content
                 default_presentation saved).
Qed.

Lemma write_ppt_saves_witness :
  index (slide_layouts stock_deck) 1
  = Ok (mk_layout (u "Title and Content") [1; 7; 16; 15; 13]) /\
  always_writable output_file = true /\
  exists saved,
    write_ppt utf8_stdout plain_repr stock_deck always_writable two_slides
              output_file None []
    = (Ok output_file, [(output_file, saved)]).
Proof.
  split; [reflexivity|]. split; [reflexivity|].
  destruct (write_ppt_saves utf8_stdout plain_repr stock_deck always_writable
              two_slides output_file None []
              (mk_layout (u "Title and Content") [1; 7; 16; 15; 13])
              eq_refl) as (saved & H & _).
  - intros page [<- | [<- | []]]; eexists; reflexivity.
  - reflexivity.
  - now exists saved.
Defined.

(** ** The writer: the two fillers of a slide *)

Lemma split_cons (sep : N) (s : str) :
  exists first rest, split sep s = first :: rest.
Proof.
  destruct s as [|c s]; cbn [split]; [eauto|].
  destruct (c =? sep)%N; [eauto|].
  destruct (split sep s); eauto.
Qed.

(** X15. On a slide made of placeholders, with a title placeholder, and for a
    slide dict whose title is a string that standard output can encode, the
    filler leaves the title placeholders and after them the content box; the
    other placeholders are gone.  The first title placeholder holds one
    paragraph per line of the title: the first line in the title style
    (28 pt, bold, colour 44/62/80, centred), the other lines unstyled. *)
Theorem fill_slide_sets_title
    (encodable : N -> bool) (repr : value -> str) (page : value)
    (shapes : list shape) (ph_type : Z) (content : frame)
    (more : list shape) (text : str) :
  forallb is_placeholder shapes = true ->
  filter is_title shapes = Placeholder ph_type content :: more ->
  getitem page (u "title") = Ok (VStr text) ->
  print_ok encodable text = true ->
  exists first rest,
    split newline text = first :: rest /\
    _fill_slide_content_with_template encodable repr page shapes
    = Placeholder ph_type (title_paragraph first :: map plain_paragraph rest)
        :: more
        ++ [TextBox 5 12 90 55 true (_fill_content_with_formatting repr page)].
Proof.
  intros Hall Hf Ht Hp.
  assert (Hty : is_title (Placeholder ph_type content) = true).
  { assert (Hin : In (Placeholder ph_type content) (filter is_title shapes))
      by (rewrite Hf; now left).
    now apply filter_In in Hin. }
  destruct (split_cons newline text) as (first & rest & Hs).
  exists first, rest. split; [exact Hs|].
  unfold _fill_slide_content_with_template. rewrite Ht.
  unfold _create_custom_content_box. rewrite Hall, Hf.
  unfold _set_slide_title, try_except, set_title_body, sbind, get, lift,
    modify.
  cbn [format_value]. rewrite (print_one encodable text), Hp.
  cbn [app find_title is_placeholder negb]. rewrite Hty.
  cbn [as_text update_at set_content clear_content _format_title snd fst].
  unfold shape_text. rewrite Hs. reflexivity.
Qed.

Lemma fill_slide_sets_title_witness :
  forallb is_placeholder [Placeholder 1 cleared; Placeholder 7 cleared] = true /\
  print_ok utf8_stdout [97; 10; 98]%N = true /\
  exists first rest,
    split newline [97; 10; 98]%N = first :: rest /\
    _fill_slide_content_with_template utf8_stdout plain_repr
      (slide_dict (VStr [97; 10; 98]%N) (VStr (u "S")) [])
      [Placeholder 1 cleared; Placeholder 7 cleared]
    = Placeholder 1 (title_paragraph first :: map plain_paragraph rest)
        :: []
        ++ [TextBox 5 12 90 55 true
              (_fill_content_with_formatting plain_repr
                 (slide_dict (VStr [97; 10; 98]%N) (VStr (u "S")) []))].
Proof.
  split; [reflexivity|]. split; [reflexivity|].
  exact (fill_slide_sets_title utf8_stdout plain_repr
           (slide_dict (VStr [97; 10; 98]%N) (VStr (u "S")) [])
           [Placeholder 1 cleared; Placeholder 7 cleared]
           1 cleared [] [97; 10; 98]%N eq_refl eq_refl eq_refl eq_refl).
Defined.

(** A title of two lines: the second paragraph of the placeholder is left
    without the title style. *)
Example fill_slide_two_line_title :
  _fill_slide_content_with_template utf8_stdout plain_repr
    (slide_dict (VStr [97; 10; 98]%N) (VStr (u "S")) [])
    [Placeholder 1 cleared; Placeholder 7 cleared]
  = [Placeholder 1 [title_paragraph (u "a"); plain_paragraph (u "b")];
     TextBox 5 12 90 55 true
       (_fill_content_with_formatting plain_repr
          (slide_dict (VStr [97; 10; 98]%N) (VStr (u "S")) []))].
Proof. reflexivity. Qed.

(** ** The writer: layouts of a template *)

Lemma find_best_layout_some
    (lower : str -> str) (first : layout) (rest : list layout)
    (layout_type : str) :
  exists ly, _find_best_layout lower (first :: rest) layout_type = Some ly.
Proof.
  unfold _find_best_layout.
  destruct (str_eqb layout_type (u "title")); cbv zeta;
    match goal with
    | |- context [find ?f ?l] => destruct (find f l)
    end; eauto.
Qed.

(** X16. [_find_best_layout] returns a layout of the template, for any layout
    type, and returns [None] only on a template without layouts. *)
Theorem find_best_layout_member
    (lower : str -> str) (layouts : list layout) (layout_type : str) :
  (_find_best_layout lower layouts layout_type = None <-> layouts = []) /\
  forall ly, _find_best_layout lower layouts layout_type = Some ly ->
             In ly layouts.
Proof.
  split.
  - split.
    + destruct layouts as [|first rest]; [reflexivity|].
      destruct (find_best_layout_some lower first rest layout_type) as [ly H].
      rewrite H. discriminate.
    + intros ->. unfold _find_best_layout.
      now destruct (str_eqb layout_type (u "title")).
  - intros ly. unfold _find_best_layout.
    destruct (str_eqb layout_type (u "title")); cbv zeta;
      match goal with
      | |- context [find ?f ?l] => destruct (find f l) as [found|] eqn:F
      end;
      try (intros H; injection H as <-; now apply find_some in F);
      (destruct layouts as [|first rest]; [discriminate|];
       intros H; injection H as <-; now left).
Qed.

(** X17. When a content-like layout exists, the content layout is the first
    content-like layout of the template; when a title-like one exists, the
    title layout is the first title-like one. *)
Theorem find_best_layout_first
    (lower : str -> str) (before : list layout) (ly : layout)
    (after : list layout) :
  (forallb (fun l => negb (content_like lower l)) before = true ->
   content_like lower ly = true ->
   _find_best_layout lower (before ++ ly :: after) (u "content") = Some ly) /\
  (forallb (fun l => negb (title_like lower l)) before = true ->
   title_like lower ly = true ->
   _find_best_layout lower (before ++ ly :: after) (u "title") = Some ly).
Proof.
  assert (F : forall f : layout -> bool,
             forallb (fun l => negb (f l)) before = true -> f ly = true ->
             find f (before ++ ly :: after) = Some ly).
  { intros f. induction before as [|b before IH]; cbn; intros Hb Hl.
    - now rewrite Hl.
    - destruct (f b); [discriminate|]. now apply IH. }
  split; intros Hb Hl; unfold _find_best_layout.
  - change (str_eqb (u "content") (u "title")) with false. cbv iota zeta.
    now rewrite F.
  - change (str_eqb (u "title") (u "title")) with true. cbv iota zeta.
    now rewrite F.
Qed.

Lemma find_best_layout_first_witness :
  content_like ascii_lower (mk_layout (u "Title and Content") [1; 7]) = true /\
  _find_best_layout ascii_lower
    ([bare_layout; title_only_layout]
       ++ mk_layout (u "Title and Content") [1; 7] :: [])
    (u "content")
  = Some (mk_layout (u "Title and Content") [1; 7]).
Proof.
  split; [reflexivity|].
  apply (proj1 (find_best_layout_first ascii_lower
                  [bare_layout; title_only_layout]
                  (mk_layout (u "Title and Content") [1; 7]) []));
    reflexivity.
Defined.

(** X18. In template mode the build does not depend on what the slides hold: for
    a template that opens and has a layout, and a path that can be written,
    it returns the output path for every outline, slides without a title or
    slides that are no dict included, and the saved deck has one slide more
    per outline entry. *)
Theorem template_build_returns
    (encodable : N -> bool)
    (lower : str -> str) (repr : value -> str) (writable : str -> bool)
    (formatted_content : list value) (template_path output_path : str)
    (fs : files) (template : deck) :
  lookup_file fs template_path = Some template ->
  slide_layouts template <> [] ->
  writable output_path = true ->
  exists saved,
    build_with_template encodable lower repr writable formatted_content
                        template_path output_path fs
    = (Ok output_path, (output_path, saved) :: fs) /\
    len (slides saved) = len (slides template) + len formatted_content.
Proof.
  intros Hfile Hne Hw.
  destruct (slide_layouts template) as [|first rest] eqn:Hl;
    [now destruct Hne|].
  destruct (find_best_layout_some lower first rest (u "title")) as [tl Ht].
  destruct (find_best_layout_some lower first rest (u "content")) as [cl Hc].
  destruct (template_pages_layouts encodable repr tl cl
              (enumerate 0 formatted_content) template)
    as (saved & Hrun & Hmap).
  exists saved. split.
  - unfold build_with_template, sbind, open_presentation.
    rewrite Hfile. cbv beta iota. rewrite Hfile. cbv beta iota.
    rewrite Hl, Ht, Hc, Hrun. unfold save, ret. now rewrite Hw.
  - apply (f_equal (@List.length layout)) in Hmap.
    rewrite length_app, !length_map in Hmap.
    assert (He : forall (l : list value) k,
               List.length (enumerate k l) = List.length l).
    { induction l as [|x l IH]; intros k; cbn; [reflexivity | now rewrite IH]. }
    rewrite He in Hmap. unfold len. lia.
Qed.

Lemma template_build_returns_witness :
  lookup_file small_template_on_disk template_file = Some small_template /\
  slide_layouts small_template <> [] /\
  always_writable output_file = true /\
  exists saved,
    build_with_template utf8_stdout ascii_lower plain_repr always_writable
                        [VNone; VInt 3] template_file output_file
                        small_template_on_disk
    = (Ok output_file, (output_file, saved) :: small_template_on_disk) /\
    len (slides saved) = 2.
Proof.
  split; [reflexivity|]. split; [discriminate|]. split; [reflexivity|].
  exact (template_build_returns utf8_stdout ascii_lower plain_repr
           always_writable
           [VNone; VInt 3] template_file output_file small_template_on_disk
           small_template eq_refl ltac:(discriminate) eq_refl).
Defined.

(** ** The writer: the style table *)

(** X19. The index looked up for a style is 6 for the one style with a layout of
    its own and 1 for every other style, known, unknown or absent. *)
Theorem default_layouts_get_values (style : option str) :
  (style = Some (u "简约") -> default_layouts_get style 1 = 6) /\
  (style <> Some (u "简约") -> default_layouts_get style 1 = 1).
Proof.
  split.
  - intros ->. reflexivity.
  - intros H. destruct style as [k|]; [|reflexivity].
    unfold default_layouts_get, default_layouts. cbn [table_get].
    unfold str_eqb.
    destruct (list_eq_dec N.eq_dec (u "默认") k); [reflexivity|].
    destruct (list_eq_dec N.eq_dec (u "简约") k) as [<-|];
      [now destruct H|].
    now destruct (list_eq_dec N.eq_dec (u "商务") k).
Qed.

Lemma default_layouts_get_values_witness :
  Some (u "学术") <> Some (u "简约") /\
  default_layouts_get (Some (u "学术")) 1 = 1.
Proof.
  split; [discriminate|].
  apply (proj2 (default_layouts_get_values (Some (u "学术")))).
  discriminate.
Defined.

(** ** The writer: the content box *)

Lemma try_except_state {S} (m : SE S unit) (s : S) :
  snd (try_except m (ret tt) s) = snd (m s).
Proof. unfold try_except, ret. now destruct (m s) as [[[]|e] s']. Qed.

Lemma add_facts_runs
    (repr : value -> str) (facts : list value) (fr : frame)
    (text : str) (size : option Z) (bold : bool) (color : option rgb)
    (after before : option Z) (al : option alignment) (runs : list run) :
  for_each facts (add_fact repr)
           (fr ++ [mk_paragraph text size bold color after before al runs])
  = (Ok tt,
     fr ++ [mk_paragraph text size bold color after before al
              (runs ++ map (fact_run repr) facts)]).
Proof.
  revert runs. induction facts as [|fact facts IH]; intros runs.
  - cbn. now rewrite app_nil_r.
  - cbn [for_each map]. unfold sbind at 1, add_fact at 1, modify.
    rewrite on_last_snoc. unfold add_run at 1.
    cbn [p_text p_size p_bold p_rgb p_space_after p_space_before p_alignment
         p_runs].
    rewrite IH, <- app_assoc. reflexivity.
Qed.

(** One well-formed point adds its paragraph, with one run per fact. *)
Lemma add_point_step
    (repr : value -> str) (i : Z) (main_point : value) (facts : list value)
    (fr : frame) :
  add_point repr i (point_dict main_point (VList facts)) fr
  = (Ok tt, fr ++ [point_paragraph repr i main_point facts]).
Proof.
  assert (G1 : dict_get [(u "main_point", main_point);
                         (u "supporting_facts", VList facts)]
                        (u "main_point") = Some main_point) by reflexivity.
  assert (G2 : dict_get [(u "main_point", main_point);
                         (u "supporting_facts", VList facts)]
                        (u "supporting_facts") = Some (VList facts))
    by reflexivity.
  unfold add_point, point_dict. rewrite G1, G2.
  unfold sbind, add_paragraph, modify, lift. cbn [py_iter].
  rewrite !on_last_snoc. unfold set_style, set_text, empty_paragraph.
  cbn [p_text p_size p_bold p_rgb p_space_after p_space_before p_alignment
       p_runs].
  rewrite add_facts_runs. reflexivity.
Qed.

(** A point whose facts cannot be iterated adds its header and raises. *)
Lemma add_point_raises
    (repr : value -> str) (i : Z) (main_point facts : value) (e : exn)
    (fr : frame) :
  py_iter facts = Raise e ->
  exists fr', add_point repr i (point_dict main_point facts) fr
              = (Raise e, fr').
Proof.
  intros H.
  assert (G1 : dict_get [(u "main_point", main_point);
                         (u "supporting_facts", facts)]
                        (u "main_point") = Some main_point) by reflexivity.
  assert (G2 : dict_get [(u "main_point", main_point);
                         (u "supporting_facts", facts)]
                        (u "supporting_facts") = Some facts) by reflexivity.
  unfold add_point, point_dict. rewrite G1, G2.
  unfold sbind, add_paragraph, modify, lift. rewrite H. eauto.
Qed.

(** The content box of a slide dict: the summary paragraph, then the loop
    over the points. *)
Lemma fill_slide_dict
    (repr : value -> str) (title summary : value) (points : list value) :
  _fill_content_with_formatting repr (slide_dict title summary points)
  = snd (for_each (enumerate 1 points)
                  (fun ip => add_point repr (fst ip) (snd ip))
                  (cleared ++ [summary_paragraph repr summary])).
Proof.
  unfold _fill_content_with_formatting. rewrite try_except_state.
  assert (G1 : py_in (u "summary") (slide_dict title summary points)
               = Ok true) by reflexivity.
  assert (G2 : getitem (slide_dict title summary points) (u "summary")
               = Ok summary) by reflexivity.
  assert (G3 : py_in (u "points") (slide_dict title summary points)
               = Ok true) by reflexivity.
  assert (G4 : getitem (slide_dict title summary points) (u "points")
               = Ok (VList points)) by reflexivity.
  unfold add_summary, add_points. rewrite G1, G2, G3, G4.
  unfold sbind, add_paragraph, modify, lift, py_len.
  cbn [py_iter bind]. rewrite !on_last_snoc. reflexivity.
Qed.

Lemma add_points_loop
    (repr : value -> str) (pts : list (value * list value)) (k : Z)
    (fr : frame) :
  for_each (enumerate k (map (fun mf => point_dict (fst mf) (VList (snd mf)))
                             pts))
           (fun ip => add_point repr (fst ip) (snd ip)) fr
  = (Ok tt,
     fr ++ map (fun imf => point_paragraph repr (fst imf) (fst (snd imf))
                                           (snd (snd imf)))
               (enumerate k pts)).
Proof.
  revert k fr. induction pts as [|[mp facts] pts IH]; intros k fr.
  - cbn. now rewrite app_nil_r.
  - cbn [map enumerate for_each fst snd]. unfold sbind at 1.
    rewrite add_point_step, IH, <- app_assoc. reflexivity.
Qed.

(** X20. For a slide dict whose points are dicts with a main point and a list of
    facts, the content box holds the paragraph left by [clear()], the summary
    paragraph, and one paragraph per point, numbered from 1, with one run
    per fact in the order of the facts. *)
Theorem fill_well_formed
    (repr : value -> str) (title summary : value)
    (pts : list (value * list value)) :
  _fill_content_with_formatting repr
    (slide_dict title summary
       (map (fun mf => point_dict (fst mf) (VList (snd mf))) pts))
  = cleared ++ summary_paragraph repr summary
      :: map (fun imf => point_paragraph repr (fst imf) (fst (snd imf))
                                         (snd (snd imf)))
             (enumerate 1 pts).
Proof.
  rewrite fill_slide_dict, add_points_loop. cbn [snd].
  now rewrite <- app_assoc.
Qed.

Lemma for_each_stops {S A} (body : A -> SE S unit) (x : A)
                     (before after : list A) (s : S) :
  (forall s0, exists e s1, body x s0 = (Raise e, s1)) ->
  for_each (before ++ x :: after) body s = for_each (before ++ [x]) body s.
Proof.
  intros Hx. revert s. induction before as [|b before IH]; intros s.
  - cbn [app for_each]. unfold sbind.
    destruct (Hx s) as (e & s1 & ->). reflexivity.
  - cbn [app for_each]. unfold sbind.
    destruct (body b s) as [[[]|e] s1]; [apply IH | reflexivity].
Qed.

Lemma enumerate_app {A} (k : Z) (l1 l2 : list A) :
  enumerate k (l1 ++ l2) = enumerate k l1 ++ enumerate (k + len l1) l2.
Proof.
  revert k. induction l1 as [|x l1 IH]; intros k; cbn [app enumerate].
  - now replace (k + len (@nil A)) with k by (unfold len; cbn; lia).
  - rewrite IH.
    now replace (k + len (x :: l1)) with (k + 1 + len l1)
      by (unfold len; cbn [List.length]; lia).
Qed.

(** C6. In the content box that [_fill_content_with_formatting] builds for a
    slide, a fact given as a dict with [fact] and [explanation] and the same
    fact given as a bare string are rendered by a run at the same place of
    the same paragraph, with the same font size (11) and colour (52/73/94)
    and the same line break, indent and bullet in front; the text of the
    first run goes on with the fact, a colon and the explanation, that of
    the second with the fact alone.  Everything else in the box is the
    same. *)
Theorem fill_fact_variants
    (repr : value -> str) (title summary main_point : value)
    (before after : list (value * list value))
    (facts_before facts_after : list value) (fact explanation : str) :
  let rendered k pts :=
    map (fun imf => point_paragraph repr (fst imf) (fst (snd imf))
                                    (snd (snd imf)))
        (enumerate k pts) in
  let box given text :=
    _fill_content_with_formatting repr
      (slide_dict title summary
         (map (fun mf => point_dict (fst mf) (VList (snd mf)))
              (before
                 ++ (main_point, facts_before ++ given :: facts_after)
                 :: after)))
    = (cleared ++ summary_paragraph repr summary :: rendered 1 before)
        ++ mk_paragraph
             (str_of_int (1 + len before) ++ u ". "
                ++ format_value repr main_point)
             (Some 13) true (Some (44, 62, 80)) (Some 4) (Some 6) (Some LEFT)
             (map (fact_run repr) facts_before
                ++ mk_run text 11 (52, 73, 94)
                :: map (fact_run repr) facts_after)
        :: rendered (1 + len before + 1) after in
  box (fact_ fact explanation)
      ([newline] ++ u "   • " ++ fact ++ u ": " ++ explanation) /\
  box (VStr fact) ([newline] ++ u "   • " ++ fact).
Proof.
  intros rendered box.
  assert (B : forall given,
             _fill_content_with_formatting repr
               (slide_dict title summary
                  (map (fun mf => point_dict (fst mf) (VList (snd mf)))
                       (before
                          ++ (main_point,
                              facts_before ++ given :: facts_after)
                          :: after)))
             = (cleared ++ summary_paragraph repr summary
                  :: rendered 1 before)
                 ++ mk_paragraph
                      (str_of_int (1 + len before) ++ u ". "
                         ++ format_value repr main_point)
                      (Some 13) true (Some (44, 62, 80)) (Some 4) (Some 6)
                      (Some LEFT)
                      (map (fact_run repr) facts_before
                         ++ fact_run repr given
                         :: map (fact_run repr) facts_after)
                 :: rendered (1 + len before + 1) after).
  { intros given. rewrite fill_slide_dict, add_points_loop. cbn [snd].
    rewrite enumerate_app. cbn [enumerate]. rewrite map_app. cbn [map].
    unfold point_paragraph at 2. cbn [fst snd].
    rewrite map_app. cbn [map]. unfold rendered, cleared.
    now rewrite <- !app_assoc. }
  split; unfold box; rewrite B.
  - now rewrite fact_run_structured.
  - now rewrite fact_run_legacy.
Qed.

(** The two renderings on a slide with one point and one fact. *)
Example fill_fact_variants_sample :
  _fill_content_with_formatting plain_repr
    (slide_dict (VStr (u "T")) (VStr (u "S"))
       [point_dict (VStr (u "P")) (VList [fact_ (u "F") (u "E")])])
  = [empty_paragraph;
     summary_paragraph plain_repr (VStr (u "S"));
     mk_paragraph (u "1. P") (Some 13) true (Some (44, 62, 80)) (Some 4)
                  (Some 6) (Some LEFT)
                  [mk_run ([newline] ++ u "   • F: E") 11 (52, 73, 94)]] /\
  _fill_content_with_formatting plain_repr
    (slide_dict (VStr (u "T")) (VStr (u "S"))
       [point_dict (VStr (u "P")) (VList [VStr (u "F")])])
  = [empty_paragraph;
     summary_paragraph plain_repr (VStr (u "S"));
     mk_paragraph (u "1. P") (Some 13) true (Some (44, 62, 80)) (Some 4)
                  (Some 6) (Some LEFT)
                  [mk_run ([newline] ++ u "   • F") 11 (52, 73, 94)]].
Proof. split; reflexivity. Qed.

(** X21. A point whose [supporting_facts] cannot be iterated (null, a number)
    ends the rendering of the slide: its header is written, and the points
    after it leave no trace in the content box. *)
Theorem fill_stops_at_broken_point
    (repr : value -> str) (title summary : value)
    (before after : list value) (main_point facts : value) (e : exn) :
  py_iter facts = Raise e ->
  _fill_content_with_formatting repr
    (slide_dict title summary (before ++ point_dict main_point facts :: after))
  = _fill_content_with_formatting repr
      (slide_dict title summary (before ++ [point_dict main_point facts])).
Proof.
  intros H. rewrite !fill_slide_dict. f_equal.
  rewrite !enumerate_app. cbn [enumerate].
  apply for_each_stops. intros s0. cbn [fst snd].
  destruct (add_point_raises repr (1 + len before) main_point facts e s0 H)
    as [fr' R].
  eauto.
Qed.

Lemma fill_stops_at_broken_point_witness :
  py_iter VNone = Raise TypeError /\
  _fill_content_with_formatting plain_repr
    (slide_dict (VStr (u "T")) (VStr (u "S"))
       ([] ++ point_dict (VStr (u "a")) VNone :: [VStr (u "b")]))
  = _fill_content_with_formatting plain_repr
      (slide_dict (VStr (u "T")) (VStr (u "S"))
         ([] ++ [point_dict (VStr (u "a")) VNone])).
Proof.
  split; [reflexivity|].
  exact (fill_stops_at_broken_point plain_repr (VStr (u "T")) (VStr (u "S"))
           [] [VStr (u "b")] (VStr (u "a")) VNone TypeError eq_refl).
Defined.

(** ** Template information *)

Lemma nth_error_enumerate {A} (l : list A) (k : Z) (i : nat) (x : A) :
  nth_error l i = Some x ->
  nth_error (enumerate k l) i = Some (k + Z.of_nat i, x).
Proof.
  revert k i. induction l as [|y l IH]; intros k [|i]; cbn; try discriminate.
  - intros H. injection H as ->. do 2 f_equal. lia.
  - intros H. rewrite (IH (k + 1) i H). do 2 f_equal. lia.
Qed.

(** X22. [get_template_info] reports an error exactly when the template cannot be
    opened; otherwise it has no [error] key, [total_layouts] is the number of
    entries of [layouts], and the entry at each position describes the layout
    at that position, with that position as its index. *)
Theorem template_info_entries
    (str_of_exn : exn -> str) (template_path : str) (fs : files) :
  (lookup_file fs template_path = None ->
   exists message,
     get_template_info str_of_exn template_path fs
     = VDict [(u "error", VStr message)]) /\
  forall template,
    lookup_file fs template_path = Some template ->
    let info := get_template_info str_of_exn template_path fs in
    getitem info (u "error") = Raise KeyError /\
    getitem info (u "total_layouts")
    = Ok (VInt (len (slide_layouts template))) /\
    exists entries,
      getitem info (u "layouts") = Ok (VList entries) /\
      len entries = len (slide_layouts template) /\
      forall i ly,
        nth_error (slide_layouts template) i = Some ly ->
        nth_error entries i = Some (layout_entry (Z.of_nat i, ly)).
Proof.
  unfold get_template_info, open_presentation. split.
  - intros ->. eexists. reflexivity.
  - intros template ->. cbv zeta. rewrite fold_left_snoc. cbn [app].
    split; [reflexivity|]. split; [reflexivity|].
    exists (map layout_entry (enumerate 0 (slide_layouts template))).
    split; [reflexivity|]. split.
    + unfold len. rewrite length_map. f_equal.
      induction (slide_layouts template) as [|x l IH] in |- *; [reflexivity|].
      cbn [enumerate List.length]. f_equal.
      clear IH. generalize (0 + 1). induction l as [|y l IH]; intros k;
        cbn; [reflexivity | now rewrite IH].
    + intros i ly H. rewrite nth_error_map.
      now rewrite (nth_error_enumerate _ 0 i ly H).
Qed.

Lemma template_info_entries_witness :
  lookup_file small_template_on_disk template_file = Some small_template /\
  getitem (get_template_info (fun _ => []) template_file
                             small_template_on_disk) (u "total_layouts")
  = Ok (VInt 2).
Proof.
  split; [reflexivity|].
  exact (proj1 (proj2 (proj2 (template_info_entries (fun _ => [])
                                template_file small_template_on_disk)
                         small_template eq_refl))).
Defined.

(** ** Cleaning and parsing the response *)

Lemma dropwhile_app_all {A} (f : A -> bool) (ws l : list A) :
  forallb f ws = true -> dropwhile f (ws ++ l) = dropwhile f l.
Proof.
  induction ws as [|w ws IH]; cbn; [reflexivity|].
  destruct (f w); [exact IH | discriminate].
Qed.

Lemma forallb_rev {A} (f : A -> bool) (l : list A) :
  forallb f l = true -> forallb f (rev l) = true.
Proof.
  rewrite !forallb_forall. intros H x Hx. apply H. now apply in_rev.
Qed.

Lemma startswith_app (p r : str) : startswith (p ++ r) p = true.
Proof.
  induction p as [|c p IH]; cbn; [now destruct r|].
  now rewrite N.eqb_refl.
Qed.

Lemma dropwhile_idem {A} (f : A -> bool) (l : list A) :
  dropwhile f (dropwhile f l) = dropwhile f l.
Proof.
  induction l as [|x l IH]; cbn; [reflexivity|].
  destruct (f x) eqn:E; [exact IH|]. cbn. now rewrite E.
Qed.

Lemma strip_idempotent (s : str) : strip (strip s) = strip s.
Proof.
  assert (L : lstrip (strip s) = strip s).
  { destruct (strip s) as [|c r] eqn:E; [reflexivity|].
    unfold lstrip. cbn. now rewrite (strip_head s c r E). }
  unfold strip at 1. rewrite L. unfold strip, rstrip.
  now rewrite rev_involutive, dropwhile_idem.
Qed.

(** X23. A response wrapped in a fence labelled json, with any white space around
    the fence, is cleaned to the stripped text between the fence marks. *)
Theorem clean_response_fenced (before body after : str) :
  forallb isspace before = true ->
  forallb isspace after = true ->
  clean_response (before ++ u "```json" ++ body ++ u "```" ++ after)
  = strip body.
Proof.
  intros Hb Ha. unfold clean_response.
  change (u "```json") with [96; 96; 96; 106; 115; 111; 110]%N.
  change (u "```") with [96; 96; 96]%N.
  set (fence := [96; 96; 96; 106; 115; 111; 110]%N).
  set (mark := [96; 96; 96]%N).
  assert (S : strip (before ++ fence ++ body ++ mark ++ after)
              = fence ++ body ++ mark).
  { unfold strip, lstrip, rstrip.
    rewrite dropwhile_app_all by assumption.
    replace (dropwhile isspace (fence ++ body ++ mark ++ after))
      with (fence ++ body ++ mark ++ after) by reflexivity.
    replace (fence ++ body ++ mark ++ after)
      with ((fence ++ body ++ mark) ++ after)
      by now rewrite <- !app_assoc.
    rewrite rev_app_distr, dropwhile_app_all by now apply forallb_rev.
    rewrite !rev_app_distr.
    replace (dropwhile isspace ((rev mark ++ rev body) ++ rev fence))
      with ((rev mark ++ rev body) ++ rev fence) by reflexivity.
    rewrite !rev_app_distr, !rev_involutive.
    now rewrite <- ?app_assoc. }
  rewrite S. rewrite startswith_app.
  replace (slice_from 7 (fence ++ body ++ mark)) with (body ++ mark)
    by reflexivity.
  assert (E : endswith (body ++ mark) mark = true).
  { unfold endswith. rewrite rev_app_distr. apply startswith_app. }
  rewrite E. f_equal.
  unfold slice_to. cbn [Z.leb Z.compare].
  replace (Z.to_nat (len (body ++ mark) + -3)) with (List.length body)
    by (unfold len, mark; rewrite length_app; cbn [List.length]; lia).
  rewrite firstn_app, firstn_all, Nat.sub_diag. cbn [firstn].
  now rewrite app_nil_r.
Qed.

Lemma clean_response_fenced_witness :
  forallb isspace (u "  ") = true /\
  forallb isspace [newline] = true /\
  clean_response (u "  " ++ u "```json" ++ (newline :: u "[1, 2]" ++ [newline])
                    ++ u "```" ++ [newline])
  = u "[1, 2]".
Proof.
  split; [reflexivity|]. split; [reflexivity|].
  rewrite clean_response_fenced by reflexivity. reflexivity.
Defined.

(** X24. A response whose stripped text has neither the labelled fence in front
    nor a fence mark at its end is cleaned to its stripped text. *)
Theorem clean_response_plain (response : str) :
  startswith (strip response) (u "```json") = false ->
  endswith (strip response) (u "```") = false ->
  clean_response response = strip response.
Proof.
  intros Hs He. unfold clean_response. rewrite Hs, He.
  apply strip_idempotent.
Qed.

Lemma clean_response_plain_witness :
  startswith (strip (u " [1, 2] ")) (u "```json") = false /\
  endswith (strip (u " [1, 2] ")) (u "```") = false /\
  clean_response (u " [1, 2] ") = u "[1, 2]".
Proof.
  split; [reflexivity|]. split; [reflexivity|].
  rewrite clean_response_plain by reflexivity. reflexivity.
Defined.

(** X25. When the cleaned response is not JSON, or is JSON but not a list (an
    object, a string, a number, null), the result is the heuristic
    extraction run on the response as received, fence included. *)
Theorem parse_outline_not_a_list
    (encodable : N -> bool) (lower : str -> str)
    (json_loads : str -> res value)
    (self : LLMApi.t) (response : str) (num_pages : Z) :
  (exists e, json_loads (clean_response response) = Raise e)
  \/ (exists content,
        json_loads (clean_response response) = Ok content /\
        forall l, content <> VList l) ->
  _parse_outline_response encodable lower json_loads self (VStr response)
                          num_pages
  = _extract_content_from_text lower self (VStr response) num_pages.
Proof.
  intros H. unfold _parse_outline_response, parse_json. cbn [as_str bind].
  destruct (print encodable _); cbn [bind]; [|reflexivity].
  destruct H as [[e ->] | (content & -> & Hl)]; [reflexivity|].
  cbn [bind]. destruct content; try reflexivity.
  now destruct (Hl l).
Qed.

Lemma parse_outline_not_a_list_witness :
  loads_numbers (clean_response (u "page 1")) = Raise JSONDecodeError /\
  _parse_outline_response utf8_stdout ascii_lower loads_numbers client
                          (VStr (u "page 1")) 1
  = _extract_content_from_text ascii_lower client (VStr (u "page 1")) 1.
Proof.
  split; [reflexivity|].
  apply parse_outline_not_a_list. left. now exists JSONDecodeError.
Defined.

Lemma find_best_layout_member_witness :
  _find_best_layout ascii_lower [bare_layout; title_only_layout] (u "title")
  = Some title_only_layout /\
  In title_only_layout [bare_layout; title_only_layout].
Proof.
  split; [reflexivity|].
  apply (proj2 (find_best_layout_member ascii_lower
                  [bare_layout; title_only_layout] (u "title"))).
  reflexivity.
Defined.

(** ** Heuristic extraction: the facts of the result *)

Lemma facts_per_point_page_value (p : page) :
  facts_per_point (page_value p)
  = map (fun pt => len (supporting_facts pt)) (points p).
Proof.
  unfold facts_per_point, page_value.
  replace (getitem (page_ (title p) (summary p) (map point_value (points p)))
                   (u "points"))
    with (Ok (VList (map point_value (points p)))) by reflexivity.
  rewrite map_map. apply map_ext. intros pt. reflexivity.
Qed.

(** X5. The result of the extraction is the slides found in the text, cut to
    [num_pages], followed by the padding slides.  Every slide found in the
    text has an empty list of facts on each of its points, and every padding
    slide has 3 points of 2 facts: a fact never comes from the text. *)
Theorem extract_fact_counts
    (lower : str -> str) (self : LLMApi.t) (text : str) (num_pages : Z)
    (result : list value) :
  0 <= num_pages ->
  _extract_content_from_text lower self (VStr text) num_pages = Ok result ->
  let found :=
    firstn (Z.to_nat num_pages) (map page_value (scanned_pages lower text)) in
  let padding :=
    map padding_page
        (range (len (scanned_pages lower text) + 1) (num_pages + 1)) in
  result = found ++ padding /\
  Forall (fun slide => Forall (fun count => count = 0) (facts_per_point slide))
         found /\
  Forall (fun slide => facts_per_point slide = [2; 2; 2]) padding.
Proof.
  intros Hn H found padding.
  rewrite extract_found_then_padding in H by assumption.
  injection H as <-. split; [|split].
  - unfold found, padding, len. now rewrite length_map.
  - assert (F : Forall (fun slide =>
                          Forall (fun count => count = 0)
                                 (facts_per_point slide))
                       (map page_value (scanned_pages lower text))).
    { apply Forall_map.
      eapply Forall_impl; [|apply scanned_pages_factless].
      intros p Hp. rewrite facts_per_point_page_value.
      apply Forall_map. eapply Forall_impl; [|exact Hp].
      intros pt ->. reflexivity. }
    rewrite <- (firstn_skipn (Z.to_nat num_pages)) in F.
    now apply Forall_app in F.
  - apply Forall_map, Forall_forall. intros n _. reflexivity.
Qed.

Lemma extract_fact_counts_witness :
  0 <= 2 /\
  _extract_content_from_text ascii_lower client (VStr indented_text) 2
  = Ok ([page_ (u "page 1") (u "page 1的主要内容概述") [point_ (u "point") []]]
          ++ [padding_page 2]) /\
  facts_per_point
    (page_ (u "page 1") (u "page 1的主要内容概述") [point_ (u "point") []])
  = [0] /\
  Forall (fun slide => facts_per_point slide = [2; 2; 2]) [padding_page 2].
Proof.
  split; [lia|].
  destruct (extract_fact_counts ascii_lower client indented_text 2 _
              ltac:(lia) eq_refl) as (E & F & P).
  split; [reflexivity|]. split; [reflexivity|]. exact P.
Defined.
